(** * GSamNetwork: the detect-then-segment glue of groundino_samnet

    A shallow embedding of [src/groundino_samnet/gsam_combined.py].

    The class chains a text-conditioned detector (GroundingDINO) and a
    promptable segmenter (SAM).  Both networks, the model hub and the helper
    module [utils] are collaborators of the class; they appear here as the
    fields of records the methods are parameterised by.  What the class itself
    does is modelled statement by statement: attribute assignment on an object
    whose class declares a property, local variables that may be left unbound,
    [None] values that receive a method call, global names that the module
    never imports, and the order in which the segmenter's image context is
    acquired and released.

    Tensor coordinates are rationals ([Q]); rounding is outside the model. *)

From Stdlib Require Import ZArith QArith Lqa List String Bool Lia.
From stdpp Require Import gmap strings.
Import ListNotations.

Local Open Scope string_scope.
Local Open Scope list_scope.

(** ** Exceptions and outcomes *)

Inductive Exn : Type :=
| TypeError (msg : string)
| ValueError (msg : string)
| AttributeError (msg : string)
| NameError (name : string)
| UnboundLocalError (name : string)
| IndexError (msg : string)
| KeyError (key : string)
| RuntimeError (msg : string)
| RecursionError
| ExternalError (msg : string).

Inductive Outcome (A : Type) : Type :=
| Ok (a : A)
| Raise (e : Exn).

Arguments Ok {A} a.
Arguments Raise {A} e.

Definition is_ok {A} (r : Outcome A) : bool :=
  match r with Ok _ => true | Raise _ => false end.

(** A local variable of a Python function body: bound to a value, or not yet
    assigned. *)
Inductive Local (A : Type) : Type :=
| Unbound
| Bound (a : A).

Arguments Unbound {A}.
Arguments Bound {A} a.

(** ** Values, arrays and tensors *)

Inductive Device : Type := Cuda | Cpu.

Inductive PyVal : Type :=
| VStr (s : string)
| VDevice (d : Device)
| VModel (name : string)
| VPredictor (name : string).

(** A numpy array: only the shape is ever inspected by the class. *)
Record ndarray : Type := mk_ndarray {
  nd_shape : list nat;
  nd_pixel : list nat -> Z
}.

(** The three accepted image representations. *)
Inductive ImageInput : Type :=
| PilImage (a : ndarray)
| TorchImage (a : ndarray)
| NumpyImage (a : ndarray).

(** One row of an (N,4) box tensor. *)
Record box : Type := mk_box { bx0 : Q; bx1 : Q; bx2 : Q; bx3 : Q }.

Definition Points : Type := list (Q * Q).
Definition Labels : Type := list Z.

(** Boolean tensors of any rank (the segmenter's masks). *)
Record BoolTensor : Type := mk_bt {
  bt_shape : list nat;
  bt_at : list nat -> bool
}.

(** ** The world: instance dictionary, segmenter context, event log *)

Inductive Event : Type :=
| EvPrint (text : string)
| EvDownload (file : string)
| EvLoadDetector
| EvLoadSam (name : string)
| EvDetect
| EvSetImage
| EvPredictTorch
| EvResetImage.

Record World : Type := mk_world {
  attrs : gmap string PyVal;      (* the instance __dict__ *)
  sam_ctx : option ndarray;       (* the segmenter's active image *)
  trace : list Event              (* newest event first *)
}.

Definition world0 : World := mk_world ∅ None [].

(** Computations that may raise and that act on the world.  The world is
    returned on failure too: what was done before the exception stays done. *)
Definition M (A : Type) : Type := World -> Outcome A * World.

Definition ret {A} (a : A) : M A := fun w => (Ok a, w).

Definition raise {A} (e : Exn) : M A := fun w => (Raise e, w).

Definition bind {A B} (m : M A) (k : A -> M B) : M B :=
  fun w =>
    match m w with
    | (Ok a, w') => k a w'
    | (Raise e, w') => (Raise e, w')
    end.

Notation "x <- m ;; k" := (bind m (fun x => k))
  (at level 100, m at next level, right associativity).
Notation "m ;;; k" := (bind m (fun _ => k))
  (at level 100, right associativity).

Definition lift {A} (r : Outcome A) : M A := fun w => (r, w).

Definition emit (ev : Event) : M unit :=
  fun w => (Ok tt, mk_world (attrs w) (sam_ctx w) (ev :: trace w)).

Definition print (text : string) : M unit := emit (EvPrint text).

(** [try: body except Exception as e: handler e] *)
Definition try_except {A} (body : M A) (handler : Exn -> M A) : M A :=
  fun w =>
    match body w with
    | (Ok a, w') => (Ok a, w')
    | (Raise e, w') => handler e w'
    end.

(** Run a statement and hand its outcome to the code that follows. *)
Definition attempt {A} (body : M A) : M (Outcome A) :=
  fun w => let '(r, w') := body w in (Ok r, w').

(** Reading a local variable. *)
Definition read_local {A} (name : string) (v : Local A) : M A :=
  match v with
  | Bound a => ret a
  | Unbound => raise (UnboundLocalError name)
  end.

(** [f(...)] where [f] is a global name of the module: [None] when the module
    never binds the name. *)
Definition load_global {A} (name : string) (binding : option A) : M A :=
  match binding with
  | Some f => ret f
  | None => raise (NameError name)
  end.

(** [x.to(device)]: defined on tensors, not on [None]. *)
Definition none_has_no_to : string := "'NoneType' object has no attribute 'to'".

Definition to_device {A} (x : option A) (d : Device) : M A :=
  match x with
  | Some t => ret t
  | None => raise (AttributeError none_has_no_to)
  end.

(** [a, b = seq] *)
Definition unpack2 {A} (l : list A) : M (A * A) :=
  match l with
  | [a; b] => ret (a, b)
  | _ :: _ :: _ :: _ => raise (ValueError "too many values to unpack (expected 2)")
  | _ => raise (ValueError "not enough values to unpack (expected 2)")
  end.

Fixpoint mapM {A B} (f : A -> M B) (l : list A) : M (list B) :=
  match l with
  | [] => ret []
  | x :: xs => y <- f x ;; ys <- mapM f xs ;; ret (y :: ys)
  end.

(** ** The module namespace *)

(** Names bound at module level once the import statements have run (the
    last four come from [from .utils import ...]). *)
Definition module_globals : list string :=
  [ "sys"; "os"; "torch"; "np"; "Image"; "hf_hub_download";
    "List"; "Union"; "Tuple"; "Optional";
    "sam_model_registry"; "SamPredictor"; "SAM1_MODELS"; "SAM_NAMES_MODELS";
    "predict"; "load_model"; "box_ops"; "GSamNetwork";
    "load_trans_image"; "change_image_instance"; "process_box_batch";
    "process_masks" ].

Definition global_bound (name : string) : bool :=
  existsb (String.eqb name) module_globals.

(** Reading a global name gives the object the module binds it to. *)
Definition read_global (name : string) : M PyVal :=
  if global_bound name then ret (VModel name) else raise (NameError name).

(** ** Attribute access on a GSamNetwork instance *)

(** The data descriptors of the class: [device] is declared with [@property]
    and no setter. *)
Record Property : Type := mk_property { prop_name : string; prop_has_setter : bool }.

Definition GSamNetwork_properties : list Property :=
  [ mk_property "device" false ].

Definition find_property (name : string) : option Property :=
  find (fun p => String.eqb (prop_name p) name) GSamNetwork_properties.

(** [self.name = v] *)
Definition setattr (name : string) (v : PyVal) : M unit :=
  match find_property name with
  | Some p =>
      if prop_has_setter p then ret tt
      else raise (AttributeError ("can't set attribute '" ++ name ++ "'"))
  | None =>
      fun w => (Ok tt, mk_world (<[name := v]> (attrs w)) (sam_ctx w) (trace w))
  end.

(** The getter of [device] is [return self.device]: it re-enters itself until
    the interpreter's recursion limit is reached. *)
Fixpoint device_getter (depth : nat) : Outcome PyVal :=
  match depth with
  | O => Raise RecursionError
  | S d => device_getter d
  end.

(** [self.name] *)
Definition getattr (recursion_limit : nat) (name : string) : M PyVal :=
  match find_property name with
  | Some _ => lift (device_getter recursion_limit)
  | None =>
      fun w =>
        match attrs w !! name with
        | Some v => (Ok v, w)
        | None => (Raise (AttributeError ("'GSamNetwork' object has no attribute '" ++ name ++ "'")), w)
        end
  end.

Definition as_device (v : PyVal) : Device :=
  match v with VDevice d => d | _ => Cpu end.

Definition as_string (v : PyVal) : string :=
  match v with VStr s => s | VModel s => s | _ => "" end.

(** ** Construction: [GSamNetwork.__init__] and the model builders *)

(** A positional argument as Python hands it over: the constructor checks
    [isinstance(SAM, str)] itself. *)
Inductive PyArg : Type :=
| ArgStr (s : string)
| ArgList (l : list string)
| ArgInt (z : Z)
| ArgNone.

(** Constants of [segment_anything.config] and the services the builders
    call: the model hub, the checkpoint loaders, the model registry. *)
Record BuildEnv : Type := mk_build_env {
  SAM_NAMES_MODELS : list string;
  SAM1_MODELS : gmap string string;
  cuda_available : bool;
  module_dir : string;
  recursion_limit : nat;
  hf_hub_download : string -> string -> Outcome string;
  load_model : string -> string -> Device -> Outcome unit;
  sam_model_registry : string -> Outcome unit;
  load_state_dict_from_url : string -> Outcome unit;
  sam_load_state_dict : string -> Outcome unit
}.

Section Construction.

Variable env : BuildEnv.

Definition download (repo_id filename : string) : M string :=
  emit (EvDownload filename) ;;; lift (hf_hub_download env repo_id filename).

Definition __Build_GroundingDINO : M unit :=
  let repo_id := "ShilongLiu/GroundingDINO" in
  let filename := "groundingdino_swint_ogc.pth" in
  let cache_config := "GroundingDINO_SwinT_OGC.cfg.py" in
  files <- try_except
             (cache_config_file <- download repo_id cache_config ;;
              pth_file <- download repo_id filename ;;
              ret (cache_config_file, pth_file))
             (fun _ => raise (RuntimeError "Error downloading GroundingDINO model.")) ;;
  try_except
    (dev <- getattr (recursion_limit env) "device" ;;
     lift (load_model env (fst files) (snd files) (as_device dev)) ;;;
     emit EvLoadDetector ;;;
     setattr "groundingdino" (VModel "groundingdino"))
    (fun _ => raise (RuntimeError "An error occurred while loading the GroundingDINO model")).

(** The first statement of the first [try] block reads the global [SAM1];
    when it fails, the handler formats [checkpoint_url], which that
    statement was to assign. *)
Definition __Build_SAM1 (SAM : string) : M unit :=
  first <- attempt (key <- read_global "SAM1" ;;
                    match SAM1_MODELS env !! as_string key with
                    | Some url => ret url
                    | None => raise (KeyError (as_string key))
                    end) ;;
  match first with
  | Raise _ => raise (UnboundLocalError "checkpoint_url")
  | Ok checkpoint_url =>
      try_except
        (lift (sam_model_registry env SAM) ;;;
         lift (load_state_dict_from_url env checkpoint_url))
        (fun _ => raise (RuntimeError "Error downloading SAM.")) ;;;
      try_except
        (lift (sam_load_state_dict env SAM) ;;;
         dev <- getattr (recursion_limit env) "device" ;;
         emit (EvLoadSam SAM) ;;;
         setattr "SAM1" (VPredictor SAM))
        (fun _ => raise (RuntimeError "SAM1 model can't be compile"))
  end.

Definition __Build_SAM2 (SAM : string) : M unit := ret tt.

Definition __init__ (SAM : PyArg) (SAM_MODEL : option string) : M unit :=
  match SAM with
  | ArgStr sam =>
      if negb (existsb (String.eqb sam) (SAM_NAMES_MODELS env))
      then raise (ValueError "The specified SAM model does not exist.")
      else
        setattr "_GSamNetwork__file_path" (VStr (module_dir env)) ;;;
        file_path <- getattr (recursion_limit env) "_GSamNetwork__file_path" ;;
        setattr "weights_path" (VStr (as_string file_path ++ "/weights")) ;;;
        setattr "default_sam1" (VStr "vit_h") ;;;
        setattr "default_sam2" (VStr "large") ;;;
        setattr "device" (VDevice (if cuda_available env then Cuda else Cpu)) ;;;
        print "Loading GroundDINO model" ;;;
        __Build_GroundingDINO ;;;
        if String.eqb sam "SAM1" then
          print "SAM1 selected: a versatile model for object segmentation in images." ;;;
          match SAM_MODEL with
          | None =>
              default_sam1 <- getattr (recursion_limit env) "default_sam1" ;;
              print "Warning: No SAM1 model selected." ;;;
              try_except (__Build_SAM1 (as_string default_sam1))
                (fun _ => print "An error occurred while loading the SAM1 model")
          | Some sam_model =>
              match SAM1_MODELS env !! sam_model with
              | None => raise (ValueError "The selected SAM model does not exist.")
              | Some _ =>
                  print "Notice: Loading the model" ;;;
                  try_except (__Build_SAM1 sam_model)
                    (fun _ => print "An error occurred while loading the SAM1 model")
              end
          end
        else if String.eqb sam "SAM2" then
          print "SAM2 selected: optimized for images and videos, offering improved object segmentation performance." ;;;
          match SAM_MODEL with
          | None =>
              default_sam2 <- getattr (recursion_limit env) "default_sam2" ;;
              print "Warning: No SAM2 model selected." ;;;
              try_except (__Build_SAM2 (as_string default_sam2))
                (fun _ => print "An error occurred while loading the SAM2 model")
          | Some sam_model =>
              read_global "SAM2_MODELS" ;;;
              print "Notice: Loading the model" ;;;
              try_except (__Build_SAM2 sam_model)
                (fun _ => print "An error occurred while loading the SAM2 model")
          end
        else ret tt
  | _ => raise (TypeError "The SAM model should be a single value, not a list or collection.")
  end.

(** The world the constructor leaves behind when it reaches the assignment
    of [self.device]. *)
Definition world_at_device (w : World) : World :=
  mk_world
    (<["default_sam2" := VStr "large"]>
       (<["default_sam1" := VStr "vit_h"]>
          (<["weights_path" := VStr (module_dir env ++ "/weights")]>
             (<["_GSamNetwork__file_path" := VStr (module_dir env)]> (attrs w)))))
    (sam_ctx w) (trace w).

End Construction.

(** ** Tensor operations used by the methods *)

Definition of_nat (n : nat) : Q := inject_Z (Z.of_nat n).

(** [np.clip(x, lo, hi)]: [minimum(maximum(x, lo), hi)]. *)
Definition np_clip (x lo hi : Q) : Q :=
  let m := if Qle_bool lo x then x else lo in
  if Qle_bool m hi then m else hi.

(** [boxes * torch.Tensor([W, H, W, H])]: the row vector is broadcast over
    the rows of the (N,4) tensor. *)
Definition scale_boxes (boxes : list box) (W H : nat) : list box :=
  map (fun b => mk_box (bx0 b * of_nat W) (bx1 b * of_nat H)
                       (bx2 b * of_nat W) (bx3 b * of_nat H)) boxes.

(** [boxes[0][0]] *)
Definition first_coordinate (boxes : list box) : M Q :=
  match boxes with
  | [] => raise (IndexError "index 0 is out of bounds for dimension 0 with size 0")
  | b :: _ => ret (bx0 b)
  end.

(** [torch.any(t, dim=0)] *)
Definition torch_any_dim0 (t : BoolTensor) : M BoolTensor :=
  match bt_shape t with
  | [] => raise (IndexError "Dimension out of range")
  | n :: rest =>
      ret (mk_bt rest (fun idx => existsb (fun b => bt_at t (b :: idx)) (seq 0 n)))
  end.

(** [t.permute(1, 2, 0)] *)
Definition permute_1_2_0 (t : BoolTensor) : M BoolTensor :=
  match bt_shape t with
  | [d0; d1; d2] =>
      ret (mk_bt [d1; d2; d0]
             (fun idx => match idx with
                         | [i; j; k] => bt_at t [k; i; j]
                         | _ => false
                         end))
  | _ => raise (RuntimeError "permute: number of dims does not match the tensor")
  end.

(** ** Collaborators of the inference methods *)

Definition Detection : Type := (list box * list Q * list string)%type.

Definition Prompts : Type :=
  (option (list box) * option Points * option Labels)%type.

(** The segmenter object held in [self.SAM1]: its coordinate transform and
    the two halves of a prediction, image encoding and mask decoding. *)
Record SamPredictor : Type := mk_sam {
  sam_device : Device;
  apply_boxes_torch : list box -> nat * nat -> list box;
  apply_coords_torch : Points -> nat * nat -> Points;
  sam_encode : ndarray -> Outcome unit;
  sam_decode : ndarray -> Points -> Labels -> list box -> Outcome BoolTensor
}.

(** What the methods find around them: the attributes of [self], the
    library functions they call, and the helpers of [utils].  A helper the
    method names as a global is an [option]: [None] stands for a name that
    is not bound in the module. *)
Record Runtime : Type := mk_runtime {
  device : Outcome Device;
  SAM1 : SamPredictor;
  predict_sam_with_boxes :
    option (ImageInput -> list (list box) -> Outcome BoolTensor);
  predict : ndarray -> string -> Q -> Q -> Device -> Outcome Detection;
  box_cxcywh_to_xyxy : list box -> list box;
  load_trans_image : ImageInput -> Outcome ndarray;
  change_image_instance : ImageInput -> Outcome ndarray;
  process_box_batch :
    list nat -> list (list box) -> list (list Q) -> list (list string) -> Q ->
    Outcome (list (list box) * list (list Q) * list (list string));
  postprocess_box :
    option (list box -> list Q -> list string -> Outcome Detection);
  postprocess_masks : option (BoolTensor -> Z -> Outcome BoolTensor)
}.

(** The messages of the two pairing errors and of the length check. *)
Definition coords_without_labels : string :=
  "If 'points_coords' is provided, 'points_labels' must also be provided, and vice versa.".
Definition labels_without_coords : string :=
  "If 'points_labels' is provided, 'points_coords' must also be provided, and vice versa.".
Definition lengths_must_match : string :=
  "The lengths of 'images', 'boxes', 'points_coords', and 'points_labels' must match.".
Definition missing_dims : string :=
  "__prep_prompts() missing 1 required positional argument: 'dims'".
Definition missing_image : string :=
  "set_image() missing 1 required positional argument: 'image'".
Definition zip_unpack_empty : string :=
  "not enough values to unpack (expected 3, got 0)".

Section Methods.

Variable rt : Runtime.

(** *** The segmenter's image context *)

(** The predictor holds one image at a time.  [set_image] drops the image it
    held and keeps the new one once the encoder has run; [predict_torch]
    needs an image to be set; [reset_image] drops it. *)
Definition set_image (image : ndarray) : M unit :=
  fun w =>
    match sam_encode (SAM1 rt) image with
    | Ok _ => (Ok tt, mk_world (attrs w) (Some image) (EvSetImage :: trace w))
    | Raise e => (Raise e, mk_world (attrs w) None (EvSetImage :: trace w))
    end.

(** [self.SAM1.set_image()] *)
Definition set_image_without_argument : M unit :=
  raise (TypeError missing_image).

Definition predict_torch (point_coords : Points) (point_labels : Labels)
    (boxes : list box) : M BoolTensor :=
  fun w =>
    match sam_ctx w with
    | None =>
        (Raise (RuntimeError "An image must be set with .set_image(...) before mask prediction."), w)
    | Some image =>
        (sam_decode (SAM1 rt) image point_coords point_labels boxes,
         mk_world (attrs w) (sam_ctx w) (EvPredictTorch :: trace w))
    end.

Definition reset_image : M unit :=
  fun w => (Ok tt, mk_world (attrs w) None (EvResetImage :: trace w)).

(** *** [__prep_prompts] *)

(** The [if boxes is not None: ... else: ...] block; the result is the
    local variable [transformed_boxes]. *)
Definition prep_boxes (boxes : option (list box)) (W H : nat)
    : M (Local (option (list box))) :=
  match boxes with
  | Some boxes =>
      first <- first_coordinate boxes ;;
      let clip_valor := np_clip first 0 1 in
      if Qeq_bool clip_valor first then
        let boxes := scale_boxes (box_cxcywh_to_xyxy rt boxes) W H in
        ret (Bound (Some (apply_boxes_torch (SAM1 rt) boxes (W, H))))
      else ret Unbound
  | None => ret (Bound None)
  end.

(** [dims] is [None] when the caller leaves the fourth argument out. *)
Definition __prep_prompts (boxes : option (list box))
    (points_coords : option Points) (points_labels : option Labels)
    (dims : option (list nat)) : M Prompts :=
  match dims with
  | None => raise (TypeError missing_dims)
  | Some dims =>
      wh <- unpack2 dims ;;
      let '(W, H) := wh in
      transformed_boxes <- prep_boxes boxes W H ;;
      match points_coords, points_labels with
      | Some _, None => raise (ValueError coords_without_labels)
      | None, Some _ => raise (ValueError labels_without_coords)
      | Some coords, Some labels =>
          let transformed_points := apply_coords_torch (SAM1 rt) coords (W, H) in
          tb <- read_local "transformed_boxes" transformed_boxes ;;
          ret (tb, Some transformed_points, Some labels)
      | None, None =>
          tb <- read_local "transformed_boxes" transformed_boxes ;;
          ret (tb, None, None)
      end
  end.

(** *** The detector adapter *)

(** Lines 152-154: the [if Normalize:] block. *)
Definition normalize_boxes (image_array : ndarray) (boxes : list box)
    : M (list box) :=
  wh <- unpack2 (firstn 2 (nd_shape image_array)) ;;
  let '(W, H) := wh in
  ret (scale_boxes (box_cxcywh_to_xyxy rt boxes) W H).

Definition predict_dino (image : ImageInput) (text_prompt : string)
    (box_threshold text_threshold : Q) (Normalize : bool) : M Detection :=
  image_trans <- lift (load_trans_image rt image) ;;
  image_array <- lift (change_image_instance rt image) ;;
  dev <- lift (device rt) ;;
  emit EvDetect ;;;
  found <- lift (predict rt image_trans text_prompt box_threshold text_threshold dev) ;;
  let '(boxes, logits, phrases) := found in
  boxes <- (if Normalize then normalize_boxes image_array boxes else ret boxes) ;;
  postprocess <- load_global "postprocess_box" (postprocess_box rt) ;;
  lift (postprocess boxes logits phrases).

(** [boxes, logits, phrases = zip( *results )]: [zip] of no sequences
    yields nothing, so the three targets find nothing to take. *)
Definition unzip_results (results : list Detection)
    : M (list (list box) * list (list Q) * list (list string)) :=
  match results with
  | [] => raise (ValueError zip_unpack_empty)
  | _ :: _ =>
      ret (map (fun r => fst (fst r)) results,
           map (fun r => snd (fst r)) results,
           map (fun r => snd r) results)
  end.

Definition predict_dino_batch (images : list ImageInput) (text_prompt : string)
    (box_threshold text_threshold : Q) (Normalize : bool)
    : M (list (list box) * list (list Q) * list (list string)) :=
  results <- mapM (fun image => predict_dino image text_prompt box_threshold
                                  text_threshold Normalize) images ;;
  unzip_results results.

(** *** The segmenter adapter *)

(** Lines 219-223: area filter, then OR over the instances. *)
Definition combine_masks (masks : BoolTensor) : M BoolTensor :=
  postprocess <- load_global "postprocess_masks" (postprocess_masks rt) ;;
  masks <- lift (postprocess masks 500%Z) ;;
  any <- torch_any_dim0 masks ;;
  permute_1_2_0 any.

Definition predict_SAM1 (image : ImageInput) (boxes : option (list box))
    (points_coords : option Points) (points_labels : option Labels)
    : M BoolTensor :=
  image_array <- lift (change_image_instance rt image) ;;
  prompts <- __prep_prompts boxes points_coords points_labels
               (Some (firstn 2 (nd_shape image_array))) ;;
  let '(transformed_boxes, transformed_points, points_labels) := prompts in
  set_image image_array ;;;
  point_coords <- to_device transformed_points (sam_device (SAM1 rt)) ;;
  point_labels <- to_device points_labels (sam_device (SAM1 rt)) ;;
  boxes <- to_device transformed_boxes (sam_device (SAM1 rt)) ;;
  masks <- predict_torch point_coords point_labels boxes ;;
  reset_image ;;;
  combine_masks masks.

(** The inner function of [predict_SAM1_batch]. *)
Definition process_image (image : ImageInput) (box : option (list box))
    (point_coord : option Points) (point_label : option Labels)
    : M BoolTensor :=
  prompts <- __prep_prompts box point_coord point_label None ;;
  let '(transformed_boxes, transformed_points, points_labels) := prompts in
  image <- lift (change_image_instance rt image) ;;
  set_image_without_argument ;;;
  point_coords <- to_device transformed_points (sam_device (SAM1 rt)) ;;
  point_labels <- to_device points_labels (sam_device (SAM1 rt)) ;;
  boxes <- to_device transformed_boxes (sam_device (SAM1 rt)) ;;
  masks <- predict_torch point_coords point_labels boxes ;;
  reset_image ;;;
  combine_masks masks.

Fixpoint zip4 {A B C D} (la : list A) (lb : list B) (lc : list C) (ld : list D)
    : list (A * B * C * D) :=
  match la, lb, lc, ld with
  | a :: la, b :: lb, c :: lc, d :: ld => (a, b, c, d) :: zip4 la lb lc ld
  | _, _, _, _ => []
  end.

Definition predict_SAM1_batch (images : list ImageInput)
    (boxes : option (list (option (list box))))
    (points_coords : option (list (option Points)))
    (points_labels : option (list (option Labels)))
    : M (list BoolTensor) :=
  let run boxes points_coords points_labels :=
    if negb ((length images =? length boxes)%nat
             && (length boxes =? length points_coords)%nat
             && (length points_coords =? length points_labels)%nat)
    then raise (ValueError lengths_must_match)
    else mapM (fun item => let '(image, box, coords, labels) := item in
                           process_image image box coords labels)
              (zip4 images boxes points_coords points_labels) in
  let boxes :=
    match boxes with
    | None => repeat None (length images)
    | Some boxes => boxes
    end in
  match points_coords, points_labels with
  | Some _, None => raise (ValueError coords_without_labels)
  | None, Some _ => raise (ValueError labels_without_coords)
  | None, None =>
      run boxes (repeat None (length images)) (repeat None (length images))
  | Some coords, Some labels => run boxes coords labels
  end.

(** *** The pipeline *)

Definition predict_batch (image : ImageInput) (text_prompt : string)
    (box_threshold process_box_threshold text_threshold : Q)
    (mode_predict : string)
    : M (list (list box) * list (list Q) * list (list string) * BoolTensor) :=
  found <- predict_dino image text_prompt box_threshold text_threshold false ;;
  let '(boxes, logits, phrases) := found in
  image_array <- lift (change_image_instance rt image) ;;
  let shape := firstn 2 (nd_shape image_array) in
  kept <- lift (process_box_batch rt shape [boxes] [logits] [phrases]
                  process_box_threshold) ;;
  let '(new_boxes, new_logits, new_phrases) := kept in
  masks <- (if String.eqb mode_predict "box_predict" then
              segment <- match predict_sam_with_boxes rt with
                         | Some f => ret f
                         | None => raise (AttributeError
                             "'GSamNetwork' object has no attribute 'predict_sam_with_boxes'")
                         end ;;
              masks <- lift (segment image new_boxes) ;;
              any <- torch_any_dim0 masks ;;
              mask <- permute_1_2_0 any ;;
              ret (Bound mask)
            else ret Unbound) ;;
  mask <- read_local "masks" masks ;;
  ret (new_boxes, new_logits, new_phrases, mask).

End Methods.

(** ** The module as it is written *)

(** The bindings the class and the import list of the source give to the
    attributes and helper names the methods read: [self.device] runs the
    property getter, [predict_sam_with_boxes] is no attribute of the class,
    and a helper is bound only when [module_globals] has its name. *)
Definition as_written (limit : nat) (rt : Runtime) : Runtime :=
  mk_runtime
    (match device_getter limit with
     | Ok v => Ok (as_device v)
     | Raise e => Raise e
     end)
    (SAM1 rt)
    None
    (predict rt) (box_cxcywh_to_xyxy rt)
    (load_trans_image rt) (change_image_instance rt) (process_box_batch rt)
    (if global_bound "postprocess_box" then postprocess_box rt else None)
    (if global_bound "postprocess_masks" then postprocess_masks rt else None).

(** ** Concrete collaborators, for running the methods *)

(** GroundingDINO's own conversion from centre-size to corner boxes. *)
Definition cxcywh_to_xyxy (boxes : list box) : list box :=
  map (fun b => mk_box (bx0 b - (1 # 2) * bx2 b) (bx1 b - (1 # 2) * bx3 b)
                       (bx0 b + (1 # 2) * bx2 b) (bx1 b + (1 # 2) * bx3 b))%Q boxes.

Fixpoint indices (shape : list nat) : list (list nat) :=
  match shape with
  | [] => [[]]
  | n :: rest => flat_map (fun i => map (cons i) (indices rest)) (seq 0 n)
  end.

Definition area (masks : BoolTensor) (instance : nat) : nat :=
  length (filter (fun idx => bt_at masks (instance :: idx))
                 (indices (tl (bt_shape masks)))).

(** Modelled from the spec: the area filter of the helper module [utils],
    which is not among the sources.  Spec 4.1, [filter_by_area]: drops the
    instance masks whose pixel count is below the threshold. *)
Definition filter_by_area (masks : BoolTensor) (area_threshold : Z)
    : Outcome BoolTensor :=
  match bt_shape masks with
  | [] => Raise (IndexError "masks have no instance axis")
  | n :: rest =>
      let kept := filter (fun b => (area_threshold <=? Z.of_nat (area masks b))%Z)
                         (seq 0 n) in
      Ok (mk_bt (length kept :: rest)
            (fun idx => match idx with
                        | i :: tail =>
                            match nth_error kept i with
                            | Some b => bt_at masks (b :: tail)
                            | None => false
                            end
                        | [] => false
                        end))
  end.

Definition array_of (image : ImageInput) : ndarray :=
  match image with
  | PilImage a => a
  | TorchImage a => a
  | NumpyImage a => a
  end.

(** A segmenter that answers one mask per box: the first covers the whole
    image, the others a single pixel. *)
Definition demo_sam : SamPredictor :=
  mk_sam Cpu
    (fun boxes _ => boxes)
    (fun coords _ => coords)
    (fun _ => Ok tt)
    (fun image _ _ boxes =>
       match nd_shape image with
       | h :: w :: _ =>
           Ok (mk_bt [length boxes; 1; h; w]
                 (fun idx => match idx with
                             | [b; c; i; j] =>
                                 if (b =? 0)%nat then true
                                 else (i =? 0)%nat && (j =? 0)%nat
                             | _ => false
                             end))
       | _ => Raise (ExternalError "image has no height and width")
       end).

(** A segmenter whose mask decoder gives up. *)
Definition failing_sam : SamPredictor :=
  mk_sam Cpu
    (fun boxes _ => boxes)
    (fun coords _ => coords)
    (fun _ => Ok tt)
    (fun _ _ _ _ => Raise (ExternalError "CUDA out of memory")).

Definition centred_box : box := mk_box (1 # 2) (1 # 2) 1 1.

Definition demo_rt_with (sam : SamPredictor) : Runtime :=
  mk_runtime
    (Ok Cpu)
    sam
    None
    (fun _ _ _ _ _ => Ok ([centred_box], [9 # 10], ["dog"]))
    cxcywh_to_xyxy
    (fun image => Ok (array_of image))
    (fun image => Ok (array_of image))
    (fun _ boxes logits phrases _ => Ok (boxes, logits, phrases))
    (Some (fun boxes logits phrases => Ok (boxes, logits, phrases)))
    (Some filter_by_area).

Definition demo_rt : Runtime := demo_rt_with demo_sam.

Definition blank (shape : list nat) : ndarray := mk_ndarray shape (fun _ => 0%Z).

(** A 2 x 3 image (height 2, width 3), and a 25 x 30 one. *)
Definition small_image : ImageInput := NumpyImage (blank [2; 3; 3]%nat).
Definition photo : ImageInput := NumpyImage (blank [25; 30; 3]%nat).

Definition one_point : Points := [(10, 10)%Q].
Definition one_label : Labels := [1%Z].

Definition demo_build : BuildEnv :=
  mk_build_env
    ["SAM1"; "SAM2"]
    (<["vit_h" := "https://dl.fbaipublicfiles.com/segment_anything/sam_vit_h_4b8939.pth"]> ∅)
    false
    "/opt/groundino_samnet"
    1000
    (fun _ filename => Ok (String.append "/cache/" filename))
    (fun _ _ _ => Ok tt)
    (fun _ => Ok tt)
    (fun _ => Ok tt)
    (fun _ => Ok tt).

(** ** The rest of the class: [reset_model] and [LangSam_batch] *)

(** [seq[i]] on a Python list. *)
Definition getitem {A} (l : list A) (i : nat) : M A :=
  match l !! i with
  | Some x => ret x
  | None => raise (IndexError "list index out of range")
  end.

Fixpoint foldM {A B} (f : A -> B -> M A) (acc : A) (l : list B) : M A :=
  match l with
  | [] => ret acc
  | x :: xs => a <- f acc x ;; foldM f a xs
  end.

(** [self.sam.reset_image()]: the attribute read is [sam]; the builders
    store the predictor under [SAM1]. *)
Definition reset_model (recursion_limit : nat) : M unit :=
  sam <- getattr recursion_limit "sam" ;;
  match sam with
  | VPredictor _ => reset_image
  | _ => raise (AttributeError "object has no attribute 'reset_image'")
  end.

(** One element of [image_data]: the images [data[0]], their masks
    [data[1]] and their identifiers [data[2]]. *)
Record Group : Type := mk_group {
  grp_images : list ImageInput;
  grp_masks : list ndarray;
  grp_ids : list Z
}.

Definition PipelineResult : Type :=
  (list (list box) * list (list Q) * list (list string) * BoolTensor)%type.

(** The seven sequences [LangSam_batch] returns.  [np.asarray] of a list is
    the sequence of its elements. *)
Record Corpus : Type := mk_corpus {
  boxess : list (list (list box));
  logitss : list (list (list Q));
  phrasess : list (list (list string));
  images : list ndarray;
  ids : list Z;
  original_masks : list ndarray;
  predict_masks : list BoolTensor
}.

Definition empty_corpus : Corpus := mk_corpus [] [] [] [] [] [] [].

(** [np.asarray(image)] *)
Definition np_asarray (image : ImageInput) : ndarray :=
  match image with
  | PilImage a => a
  | TorchImage a => a
  | NumpyImage a => a
  end.

Section CorpusLoop.

Variable rt : Runtime.
Variable text_prompt : string.
Variables box_threshold process_box_threshold text_threshold : Q.
Variables mode_predict mode_data : string.

(** The body of the inner loop.  The locals [boxes], [logits], [phrases]
    and [masks] are assigned together, by the one unpacking of what
    [predict_batch] returns, and keep their values from one round to the
    next. *)
Definition corpus_round (data : Group)
    (state : Local PipelineResult * Corpus) (i : nat)
    : M (Local PipelineResult * Corpus) :=
  let '(found, acc) := state in
  image <- getitem (grp_images data) i ;;
  mask_org <- getitem (grp_masks data) i ;;
  id <- getitem (grp_ids data) i ;;
  let image_source := np_asarray image in
  found <- (if String.eqb mode_data "batch" then
              r <- predict_batch rt image text_prompt box_threshold
                     process_box_threshold text_threshold mode_predict ;;
              ret (Bound r)
            else ret found) ;;
  r <- read_local "boxes" found ;;
  let '(boxes, logits, phrases, masks) := r in
  ret (found,
       mk_corpus (boxess acc ++ [boxes]) (logitss acc ++ [logits])
         (phrasess acc ++ [phrases]) (images acc ++ [image_source])
         (ids acc ++ [id]) (original_masks acc ++ [mask_org])
         (predict_masks acc ++ [masks])).

Definition corpus_group (state : Local PipelineResult * Corpus) (data : Group)
    : M (Local PipelineResult * Corpus) :=
  foldM (corpus_round data) state (seq 0 (length (grp_images data))).

Definition LangSam_batch (image_data : list Group) : M Corpus :=
  state <- foldM corpus_group (Unbound, empty_corpus) image_data ;;
  ret (snd state).

End CorpusLoop.

(** ** [visuals.plot_grid] *)

(** What reaches [sv.plot_images_grid]. *)
Record GridPlot : Type := mk_grid_plot {
  gp_images : list ndarray;
  gp_grid_size : nat * nat;
  gp_size : nat * nat;
  gp_titles : list Z
}.

Definition truncation_warning : string :=
  "Warning: The amount displayed will be truncated to 10. You can change this value using the image_max argument, but there is a risk of not displaying the images correctly.".

Section Visuals.

(** [convert_image_to_numpy] of [utils] and [annotate] of GroundingDINO. *)
Variable convert_image_to_numpy : ImageInput -> Outcome ndarray.
Variable annotate :
  ImageInput -> list box -> list Q -> list string -> Outcome ndarray.

(** The [if len(images) > imag_max:] block. *)
Definition truncate_inputs (imag_max : Z) (images : list ImageInput)
    (idss : list Z) (boxes : list (list box)) (logits : list (list Q))
    (phrases : list (list string))
    : M (list ImageInput * list Z * list (list box) * list (list Q)
         * list (list string)) :=
  if (imag_max <? Z.of_nat (length images))%Z then
    print truncation_warning ;;;
    let images := firstn 20 images in
    let idss := firstn 20 idss in
    let boxes := firstn 20 boxes in
    let logits := firstn 20 logits in
    let phrases := firstn 20 phrases in
    images <- mapM (fun image => a <- lift (convert_image_to_numpy image) ;;
                                 ret (NumpyImage a)) images ;;
    ret (images, idss, boxes, logits, phrases)
  else ret (images, idss, boxes, logits, phrases).

Definition plot_grid (images : list ImageInput) (idss : list Z)
    (boxes : list (list box)) (logits : list (list Q))
    (phrases : list (list string)) (args : gmap string Z) : M GridPlot :=
  let imag_max := default 10%Z (args !! "image_max") in
  kept <- truncate_inputs imag_max images idss boxes logits phrases ;;
  let '(images, idss, boxes, logits, phrases) := kept in
  annotated_frames <-
    mapM (fun i => image <- getitem images i ;;
                   b <- getitem boxes i ;;
                   l <- getitem logits i ;;
                   p <- getitem phrases i ;;
                   lift (annotate image b l p))
         (seq 0 (length boxes)) ;;
  ret (mk_grid_plot annotated_frames
         (8, length annotated_frames / 8 + 1)%nat (15, 15)%nat idss).

End Visuals.

(** ** Vocabulary of the statements *)

(** The first coordinate of a box tensor is outside [0,1]: clipping moves it. *)
Definition outside_unit (x : Q) : Prop := (x < 0 \/ 1 < x)%Q.

(** Both point arguments are given, or neither. *)
Definition points_paired {A B} (coords : option A) (labels : option B) : bool :=
  match coords, labels with
  | Some _, Some _ | None, None => true
  | _, _ => false
  end.

(** [boxes] is absent, or has a first row whose first coordinate clipping
    leaves alone: the cases in which [prep_boxes] binds [transformed_boxes]. *)
Definition boxes_accepted (boxes : option (list box)) : bool :=
  match boxes with
  | None => true
  | Some [] => false
  | Some (b :: _) => Qeq_bool (np_clip (bx0 b) 0 1) (bx0 b)
  end.

(** The error [__prep_prompts] and [predict_SAM1_batch] raise for a lone
    point argument. *)
Definition pairing_error {A B} (coords : option A) (labels : option B) : Exn :=
  match coords, labels with
  | None, Some _ => ValueError labels_without_coords
  | _, _ => ValueError coords_without_labels
  end.

(** The worlds [predict_SAM1] can leave behind, from the world [w] it
    started in: the encoder failed inside [set_image]; the image is set; the
    decoder has been called and the image is still set; the image has been
    released after the decoder. *)
Definition encoder_failed (w : World) : World :=
  mk_world (attrs w) None (EvSetImage :: trace w).

Definition image_held (w : World) (array : ndarray) : World :=
  mk_world (attrs w) (Some array) (EvSetImage :: trace w).

Definition decoder_called (w : World) (array : ndarray) : World :=
  mk_world (attrs w) (Some array) (EvPredictTorch :: EvSetImage :: trace w).

Definition image_released (w : World) : World :=
  mk_world (attrs w) None (EvResetImage :: EvPredictTorch :: EvSetImage :: trace w).

(** [boxes] is absent, or its first coordinate lies within [0,1]. *)
Definition first_in_unit (boxes : option (list box)) : Prop :=
  boxes = None
  \/ exists b rest, boxes = Some (b :: rest) /\ (0 <= bx0 b <= 1)%Q.

(** What [__prep_prompts] hands back when it returns. *)
Definition prepared (rt : Runtime) (boxes : option (list box))
    (coords : option Points) (labels : option Labels) (W H : nat) : Prompts :=
  (option_map (fun b => apply_boxes_torch (SAM1 rt)
                          (scale_boxes (box_cxcywh_to_xyxy rt b) W H) (W, H))
              boxes,
   option_map (fun c => apply_coords_torch (SAM1 rt) c (W, H)) coords,
   labels).



(** More data for running the methods: a runtime that cannot convert torch
    tensors, masks that are single pixels, a world with a predictor stored
    under [SAM1] and an image set. *)
Definition picky_rt : Runtime :=
  mk_runtime
    (Ok Cpu) demo_sam None
    (fun _ _ _ _ _ => Ok ([centred_box], [9 # 10], ["dog"]))
    cxcywh_to_xyxy
    (fun image => Ok (array_of image))
    (fun image => match image with
                  | TorchImage _ => Raise (TypeError "unsupported image type")
                  | _ => Ok (array_of image)
                  end)
    (fun _ boxes logits phrases _ => Ok (boxes, logits, phrases))
    (Some (fun boxes logits phrases => Ok (boxes, logits, phrases)))
    (Some filter_by_area).

Definition specks : BoolTensor :=
  mk_bt [2; 1; 25; 30]%nat
    (fun idx => match idx with
                | [b; c; i; j] => (i =? 0)%nat && (j =? 0)%nat
                | _ => false
                end).

Definition busy_world : World :=
  mk_world (<["SAM1" := VPredictor "vit_h"]> ∅) (Some (blank [25; 30; 3]%nat)) [].

Definition tensor_image : ImageInput := TorchImage (blank [25; 30; 3]%nat).


Definition two_photos : Group :=
  mk_group [photo; small_image] [blank [25; 30]%nat; blank [2; 3]%nat] [7%Z; 8%Z].

(** Stand-ins for the image conversion and the annotation of [visuals]. *)
Definition demo_convert (image : ImageInput) : Outcome ndarray :=
  Ok (array_of image).

Definition demo_annotate (image : ImageInput) (boxes : list box)
    (logits : list Q) (phrases : list string) : Outcome ndarray :=
  Ok (array_of image).

(** Whether [plot_grid] truncates its inputs. *)
Definition truncates (args : gmap string Z) (imgs : list ImageInput) : bool :=
  (default 10%Z (args !! "image_max") <? Z.of_nat (length imgs))%Z.

(** Fifteen detections to plot: more than the default [image_max],
    fewer than twenty. *)
Definition fifteen_images : list ImageInput := repeat small_image 15.
Definition fifteen_ids : list Z := map Z.of_nat (seq 0 15).
Definition fifteen_boxes : list (list box) := repeat [centred_box] 15.
Definition fifteen_logits : list (list Q) := repeat [9 # 10] 15.
Definition fifteen_phrases : list (list string) := repeat ["dog"] 15.

Definition no_images (g : Group) : Prop := grp_images g = [].

Definition well_formed (g : Group) : Prop :=
  length (grp_masks g) = length (grp_images g)
  /\ length (grp_ids g) = length (grp_images g).

(** * Properties *)

(** ** Running monadic code *)

Lemma bind_ok {A B} (m : M A) (k : A -> M B) (w w' : World) (a : A) :
  m w = (Ok a, w') -> bind m k w = k a w'.
Proof. intros E. unfold bind. now rewrite E. Qed.

Lemma bind_raise {A B} (m : M A) (k : A -> M B) (w w' : World) (e : Exn) :
  m w = (Raise e, w') -> bind m k w = (Raise e, w').
Proof. intros E. unfold bind. now rewrite E. Qed.

Lemma bind_ret {A B} (a : A) (k : A -> M B) (w : World) :
  bind (ret a) k w = k a w.
Proof. reflexivity. Qed.

Lemma mapM_nil {A B} (f : A -> M B) (w : World) : mapM f [] w = (Ok [], w).
Proof. reflexivity. Qed.

(** ** The constructor *)

Lemma setattr_plain (name : string) (v : PyVal) (w : World) :
  find_property name = None ->
  setattr name v w = (Ok tt, mk_world (<[name := v]> (attrs w)) (sam_ctx w) (trace w)).
Proof. intros E. unfold setattr. now rewrite E. Qed.

Lemma setattr_device (v : PyVal) (w : World) :
  setattr "device" v w = (Raise (AttributeError "can't set attribute 'device'"), w).
Proof. reflexivity. Qed.

Lemma device_getter_overflows (depth : nat) : device_getter depth = Raise RecursionError.
Proof. induction depth as [|d IH]; [reflexivity | exact IH]. Qed.

(** X4. Reading [self.device] never yields a value, whatever the instance
    dictionary holds and whatever the recursion limit is: the getter calls
    itself until the interpreter gives up. *)
Lemma getattr_device (limit : nat) (w : World) :
  getattr limit "device" w = (Raise RecursionError, w).
Proof.
  unfold getattr. simpl find_property. unfold lift.
  now rewrite device_getter_overflows.
Qed.

Lemma selector_accepted (names : list string) (sam : string) :
  In sam names -> existsb (String.eqb sam) names = true.
Proof.
  intros Hin. apply existsb_exists. exists sam. split; [exact Hin|].
  apply String.eqb_refl.
Qed.

(** A valid selector takes the constructor to the assignment of
    [self.device], where it raises. *)
Lemma init_valid_selector
    (env : BuildEnv) (sam : string) (SAM_MODEL : option string) (w : World) :
  In sam (SAM_NAMES_MODELS env) ->
  __init__ env (ArgStr sam) SAM_MODEL w
    = (Raise (AttributeError "can't set attribute 'device'"), world_at_device env w).
Proof.
  intros Hin. unfold __init__.
  rewrite (selector_accepted _ _ Hin). cbn [negb].
  erewrite bind_ok by (apply setattr_plain; reflexivity).
  erewrite bind_ok
    by (unfold getattr; cbn [find_property find GSamNetwork_properties prop_name String.eqb Ascii.eqb Bool.eqb];
        cbn [attrs]; rewrite lookup_insert_eq; reflexivity).
  cbn [as_string].
  erewrite bind_ok by (apply setattr_plain; reflexivity).
  erewrite bind_ok by (apply setattr_plain; reflexivity).
  erewrite bind_ok by (apply setattr_plain; reflexivity).
  erewrite bind_raise by apply setattr_device.
  reflexivity.
Qed.

(** C1. Constructing a GSamNetwork with a valid selector raises at the
    assignment [self.device = ...]: the class declares [device] as a property
    without a setter.  At that point the four plain attributes have been
    stored, nothing has been printed, downloaded or loaded, and neither
    [groundingdino] nor [SAM1] has been set on the object. *)
Theorem init_fails_at_device_assignment
    (env : BuildEnv) (sam : string) (SAM_MODEL : option string) (w : World) :
  In sam (SAM_NAMES_MODELS env) ->
  __init__ env (ArgStr sam) SAM_MODEL w
    = (Raise (AttributeError "can't set attribute 'device'"), world_at_device env w)
  /\ trace (world_at_device env w) = trace w
  /\ attrs (world_at_device env w) !! "groundingdino" = attrs w !! "groundingdino"
  /\ attrs (world_at_device env w) !! "SAM1" = attrs w !! "SAM1".
Proof.
  intros Hin. split; [now apply init_valid_selector|].
  split; [reflexivity|].
  unfold world_at_device; cbn [attrs].
  split; rewrite !lookup_insert_ne by discriminate; reflexivity.
Qed.

Lemma init_fails_at_device_assignment_witness :
  In "SAM1" (SAM_NAMES_MODELS demo_build)
  /\ __init__ demo_build (ArgStr "SAM1") None world0
       = (Raise (AttributeError "can't set attribute 'device'"),
          world_at_device demo_build world0).
Proof.
  split.
  - simpl. left. reflexivity.
  - apply (init_fails_at_device_assignment demo_build "SAM1" None world0).
    simpl. left. reflexivity.
Defined.

(** ** Clipping *)

Lemma np_clip_unit_fixed (x : Q) :
  Qeq_bool (np_clip x 0 1) x = true <-> (0 <= x <= 1)%Q.
Proof.
  unfold np_clip.
  destruct (Qle_bool 0 x) eqn:E0.
  - apply Qle_bool_iff in E0.
    destruct (Qle_bool x 1) eqn:E1.
    + apply Qle_bool_iff in E1. rewrite Qeq_bool_iff. split; [intros _; split; assumption | intros _; reflexivity].
    + assert (N1 : ~ (x <= 1)%Q) by (rewrite <- Qle_bool_iff, E1; discriminate).
      rewrite Qeq_bool_iff. split; [intros E; lra | intros [_ H]; contradiction].
  - assert (N0 : ~ (0 <= x)%Q) by (rewrite <- Qle_bool_iff, E0; discriminate).
    change (Qle_bool 0 1) with true. cbn iota.
    rewrite Qeq_bool_iff. split; [intros E; lra | intros [H _]; contradiction].
Qed.

Lemma np_clip_moves_outside (x : Q) :
  outside_unit x -> Qeq_bool (np_clip x 0 1) x = false.
Proof.
  intros Hout. destruct (Qeq_bool (np_clip x 0 1) x) eqn:E; [|reflexivity].
  apply np_clip_unit_fixed in E. unfold outside_unit in Hout. lra.
Qed.

(** ** Prompt preparation *)

Lemma prep_boxes_out_of_range (rt : Runtime) (b : box) (rest : list box)
    (W H : nat) (w : World) :
  outside_unit (bx0 b) ->
  prep_boxes rt (Some (b :: rest)) W H w = (Ok Unbound, w).
Proof.
  intros Hout. unfold prep_boxes, first_coordinate.
  rewrite bind_ret. now rewrite (np_clip_moves_outside _ Hout).
Qed.

Lemma prep_boxes_accepted (rt : Runtime) (boxes : option (list box))
    (W H : nat) (w : World) :
  boxes_accepted boxes = true ->
  exists tb, prep_boxes rt boxes W H w = (Ok (Bound tb), w)
             /\ (boxes = None -> tb = None).
Proof.
  destruct boxes as [[|b rest]|]; cbn [boxes_accepted]; intros Hacc.
  - discriminate.
  - unfold prep_boxes, first_coordinate. rewrite bind_ret, Hacc.
    eexists. split; [reflexivity | discriminate].
  - exists None. split; reflexivity.
Qed.

(** A lone point argument is rejected by [__prep_prompts] whenever the box
    block before the check runs through. *)
Lemma prep_prompts_lone_point (rt : Runtime) (boxes : option (list box))
    (coords : option Points) (labels : option Labels) (W H : nat) (w : World) :
  points_paired coords labels = false ->
  boxes = None \/ (exists b rest, boxes = Some (b :: rest)) ->
  __prep_prompts rt boxes coords labels (Some [W; H]) w
    = (Raise (pairing_error coords labels), w).
Proof.
  intros Hlone Hboxes. unfold __prep_prompts. cbn [unpack2]. rewrite bind_ret.
  assert (Hb : exists v, prep_boxes rt boxes W H w = (Ok v, w)).
  { destruct Hboxes as [-> | (b & rest & ->)].
    - exists (Bound None). reflexivity.
    - unfold prep_boxes, first_coordinate. rewrite bind_ret.
      destruct (Qeq_bool _ _); eexists; reflexivity. }
  destruct Hb as [v Hv]. rewrite (bind_ok _ _ _ _ _ Hv).
  destruct coords, labels; try discriminate; reflexivity.
Qed.

(** X11. The batch entry point checks the pairing first of all: a lone
    point list is rejected with the pairing error whatever the images, the
    boxes and the lengths are, and nothing has been run. *)
Lemma predict_SAM1_batch_lone_point (rt : Runtime) (images : list ImageInput)
    (boxes : option (list (option (list box))))
    (coords : option (list (option Points)))
    (labels : option (list (option Labels))) (w : World) :
  points_paired coords labels = false ->
  predict_SAM1_batch rt images boxes coords labels w
    = (Raise (pairing_error coords labels), w).
Proof.
  intros Hlone. unfold predict_SAM1_batch.
  destruct coords, labels; try discriminate; reflexivity.
Qed.

(** C6. With an empty box tensor and point coordinates that come without
    labels, [__prep_prompts] stops at [boxes[0][0]] with an IndexError; the
    pairing check further down is not reached. *)
Theorem prep_prompts_empty_boxes_lone_point
    (rt : Runtime) (coords : Points) (W H : nat) (w : World) :
  __prep_prompts rt (Some []) (Some coords) None (Some [W; H]) w
    = (Raise (IndexError "index 0 is out of bounds for dimension 0 with size 0"), w).
Proof. reflexivity. Qed.

(** C9. A box tensor whose first coordinate is outside [0,1] leaves
    [transformed_boxes] unbound, and [__prep_prompts] never returns it: with
    both point arguments or neither it fails reading the unbound local at
    the [return]; with a lone point argument the pairing check raises
    before that. *)
Theorem prep_prompts_out_of_range
    (rt : Runtime) (b : box) (rest : list box)
    (coords : option Points) (labels : option Labels) (W H : nat) (w : World) :
  outside_unit (bx0 b) ->
  prep_boxes rt (Some (b :: rest)) W H w = (Ok Unbound, w)
  /\ __prep_prompts rt (Some (b :: rest)) coords labels (Some [W; H]) w
     = (Raise (if points_paired coords labels
               then UnboundLocalError "transformed_boxes"
               else pairing_error coords labels), w).
Proof.
  intros Hout. split; [now apply prep_boxes_out_of_range|].
  unfold __prep_prompts. cbn [unpack2]. rewrite bind_ret.
  rewrite (bind_ok _ _ _ _ _ (prep_boxes_out_of_range rt b rest W H w Hout)).
  destruct coords, labels; reflexivity.
Qed.

Lemma prep_prompts_out_of_range_witness :
  outside_unit (bx0 (mk_box 5 5 10 10))
  /\ __prep_prompts demo_rt (Some [mk_box 5 5 10 10]) (Some one_point)
       (Some one_label) (Some [25; 30]%nat) world0
     = (Raise (UnboundLocalError "transformed_boxes"), world0).
Proof.
  assert (Hout : outside_unit (bx0 (mk_box 5 5 10 10))).
  { right. reflexivity. }
  split; [exact Hout|].
  exact (proj2 (prep_prompts_out_of_range demo_rt (mk_box 5 5 10 10) []
                  (Some one_point) (Some one_label) 25 30 world0 Hout)).
Defined.

(** C9, as stated, fails: the first coordinate is 5, yet the error is the
    pairing ValueError, not the unbound local. *)
Lemma prep_prompts_out_of_range_lone_point :
  outside_unit (bx0 (mk_box 5 5 10 10))
  /\ fst (__prep_prompts demo_rt (Some [mk_box 5 5 10 10]) (Some one_point) None
            (Some [25; 30]%nat) world0)
     = Raise (ValueError coords_without_labels)
  /\ fst (__prep_prompts demo_rt (Some [mk_box 5 5 10 10]) (Some one_point) None
            (Some [25; 30]%nat) world0)
     <> Raise (UnboundLocalError "transformed_boxes").
Proof.
  split; [right; reflexivity|].
  split; [reflexivity | discriminate].
Qed.

(** ** The segmenter adapter *)

(** Case analysis on the innermost scrutinee first, so that every branch
    keeps the equation that selected it. *)
Ltac case_step :=
  match goal with
  | |- context [match ?x with _ => _ end] =>
      lazymatch x with
      | context [match _ with _ => _ end] => fail
      | _ => destruct x eqn:?
      end
  end.

Ltac unfold_methods :=
  unfold predict_SAM1, __prep_prompts, prep_boxes, first_coordinate, unpack2,
    combine_masks, set_image, predict_torch, reset_image, to_device,
    read_local, load_global, torch_any_dim0, permute_1_2_0,
    bind, lift, ret, raise.

Ltac run_cases :=
  repeat (cbn [fst snd sam_ctx trace attrs is_ok]; case_step);
  cbn [fst snd sam_ctx trace attrs is_ok In].

(** [__prep_prompts] and the mask combination act on values only. *)
Lemma prep_prompts_pure (rt : Runtime) (boxes : option (list box))
    (coords : option Points) (labels : option Labels)
    (dims : option (list nat)) (w : World) :
  snd (__prep_prompts rt boxes coords labels dims w) = w.
Proof.
  unfold __prep_prompts, prep_boxes, first_coordinate, unpack2, read_local,
    bind, ret, raise.
  repeat (cbn [fst snd]; case_step); reflexivity.
Qed.

Lemma combine_masks_pure (rt : Runtime) (masks : BoolTensor) (w : World) :
  combine_masks rt masks w = (fst (combine_masks rt masks w), w).
Proof.
  unfold combine_masks, load_global, torch_any_dim0, permute_1_2_0,
    bind, lift, ret, raise.
  repeat (cbn [fst snd]; case_step); reflexivity.
Qed.

(** C2. Where each exit of [predict_SAM1] leaves the segmenter's image
    context.  A failure of the image conversion or of [__prep_prompts]
    leaves the world as the call found it.  A failure of the encoder inside
    [set_image] leaves no image.  Once the image is set, a prompt side that
    is [None] and a decoder that raises both end the call with that image
    still set: nothing releases it.  Once the decoder has answered, the
    image is released before the masks are post-processed, so the call ends
    with the context released whether post-processing returns or raises. *)
Theorem predict_SAM1_context
    (rt : Runtime) (image : ImageInput) (boxes : option (list box))
    (coords : option Points) (labels : option Labels) (w : World) :
  (forall e,
      change_image_instance rt image = Raise e ->
      predict_SAM1 rt image boxes coords labels w = (Raise e, w))
  /\ (forall array,
        change_image_instance rt image = Ok array ->
        (forall e,
            __prep_prompts rt boxes coords labels
              (Some (firstn 2 (nd_shape array))) w = (Raise e, w) ->
            predict_SAM1 rt image boxes coords labels w = (Raise e, w))
        /\ (forall tb tp lbl,
              __prep_prompts rt boxes coords labels
                (Some (firstn 2 (nd_shape array))) w = (Ok (tb, tp, lbl), w) ->
              (forall e,
                  sam_encode (SAM1 rt) array = Raise e ->
                  predict_SAM1 rt image boxes coords labels w
                    = (Raise e, encoder_failed w))
              /\ (sam_encode (SAM1 rt) array = Ok tt ->
                  (tp = None \/ lbl = None \/ tb = None ->
                   predict_SAM1 rt image boxes coords labels w
                     = (Raise (AttributeError none_has_no_to), image_held w array))
                  /\ (forall p l b,
                        tp = Some p -> lbl = Some l -> tb = Some b ->
                        (forall e,
                            sam_decode (SAM1 rt) array p l b = Raise e ->
                            predict_SAM1 rt image boxes coords labels w
                              = (Raise e, decoder_called w array))
                        /\ (forall masks,
                              sam_decode (SAM1 rt) array p l b = Ok masks ->
                              predict_SAM1 rt image boxes coords labels w
                                = (fst (combine_masks rt masks (image_released w)),
                                   image_released w)))))).
Proof.
  split.
  - intros e Himg. unfold predict_SAM1, lift. unfold bind at 1.
    now rewrite Himg.
  - intros array Himg.
    assert (Hstart : forall k : ndarray -> M BoolTensor,
               bind (lift (change_image_instance rt image)) k w = k array w).
    { intros k. unfold bind, lift. now rewrite Himg. }
    unfold predict_SAM1. rewrite Hstart. clear Hstart.
    split.
    + intros e Hprep. now rewrite (bind_raise _ _ _ _ _ Hprep).
    + intros tb tp lbl Hprep. rewrite (bind_ok _ _ _ _ _ Hprep).
      split.
      * intros e Henc. unfold set_image, bind. now rewrite Henc.
      * intros Henc.
        assert (Hset : set_image rt array w = (Ok tt, image_held w array)).
        { unfold set_image. now rewrite Henc. }
        rewrite (bind_ok _ _ _ _ _ Hset).
        split.
        -- intros Hnone. unfold to_device, bind, raise, ret.
           destruct tp; [|reflexivity].
           destruct lbl; [|reflexivity].
           destruct tb; [|reflexivity].
           destruct Hnone as [H | [H | H]]; discriminate H.
        -- intros p l b -> -> ->.
           unfold to_device. rewrite !bind_ret.
           split.
           ++ intros e Hdec. apply bind_raise.
              unfold predict_torch, image_held; cbn [sam_ctx attrs trace].
              now rewrite Hdec.
           ++ intros masks Hdec.
              assert (Hrun : predict_torch rt p l b (image_held w array)
                             = (Ok masks, decoder_called w array)).
              { unfold predict_torch, image_held; cbn [sam_ctx attrs trace].
                now rewrite Hdec. }
              rewrite (bind_ok _ _ _ _ _ Hrun).
              assert (Hreset : reset_image (decoder_called w array)
                               = (Ok tt, image_released w)) by reflexivity.
              rewrite (bind_ok _ _ _ _ _ Hreset).
              apply combine_masks_pure.
Qed.

(** The decoder answers and the name [postprocess_masks] is unbound, as in
    the module: the call fails in post-processing, the image released. *)
Lemma predict_SAM1_context_witness :
  change_image_instance (as_written 1000 demo_rt) photo = Ok (blank [25; 30; 3]%nat)
  /\ predict_SAM1 (as_written 1000 demo_rt) photo (Some [centred_box])
       (Some one_point) (Some one_label) world0
     = (Raise (NameError "postprocess_masks"), image_released world0).
Proof.
  split; [reflexivity|].
  destruct (proj2 (predict_SAM1_context (as_written 1000 demo_rt) photo
                     (Some [centred_box]) (Some one_point) (Some one_label)
                     world0)
              (blank [25; 30; 3]%nat) eq_refl) as [_ Hprep].
  destruct (Hprep (Some (scale_boxes (cxcywh_to_xyxy [centred_box]) 25 30))
              (Some one_point) (Some one_label) eq_refl) as [_ Henc].
  destruct (Henc eq_refl) as [_ Hdec].
  destruct (Hdec _ _ _ eq_refl eq_refl eq_refl) as [_ Hmasks].
  rewrite (Hmasks _ eq_refl). reflexivity.
Defined.

(** C2, as stated, fails: when the mask decoder raises, the call returns
    with the image it set still active. *)
Lemma predict_SAM1_leaves_context_on_failure :
  fst (predict_SAM1 (as_written 1000 (demo_rt_with failing_sam)) photo
         (Some [centred_box]) (Some one_point) (Some one_label) world0)
    = Raise (ExternalError "CUDA out of memory")
  /\ sam_ctx (snd (predict_SAM1 (as_written 1000 (demo_rt_with failing_sam)) photo
                     (Some [centred_box]) (Some one_point) (Some one_label)
                     world0))
     = Some (blank [25; 30; 3]%nat)
  /\ sam_ctx (snd (predict_SAM1 (as_written 1000 (demo_rt_with failing_sam)) photo
                     (Some [centred_box]) (Some one_point) (Some one_label)
                     world0))
     <> None.
Proof.
  split; [vm_compute; reflexivity|].
  split; [vm_compute; reflexivity|].
  vm_compute. discriminate.
Qed.

(** A call that returns has gone through every stage: the mask it returns is
    the filtered answer of the decoder, reduced over the instance axis and
    with the channel axis moved last. *)
Lemma predict_SAM1_returns
    (rt : Runtime) (image : ImageInput) (boxes : option (list box))
    (coords : option Points) (labels : option Labels)
    (w w' : World) (mask : BoolTensor) :
  predict_SAM1 rt image boxes coords labels w = (Ok mask, w') ->
  exists array area_filter pts lbls bxs raw kept n c h wd,
    change_image_instance rt image = Ok array
    /\ boxes <> None /\ coords <> None /\ labels <> None
    /\ sam_decode (SAM1 rt) array pts lbls bxs = Ok raw
    /\ postprocess_masks rt = Some area_filter
    /\ area_filter raw 500%Z = Ok kept
    /\ bt_shape kept = [n; c; h; wd]
    /\ bt_shape mask = [h; wd; c]
    /\ forall i j k,
         bt_at mask [i; j; k]
         = existsb (fun b => bt_at kept [b; k; i; j]) (seq 0 n).
Proof.
  unfold_methods. run_cases.
  all: try discriminate.
  all: intros [= <- <-].
  all: repeat match goal with
              | H : bt_shape (mk_bt _ _) = _ |- _ => cbn [bt_shape] in H
              end; subst.
  all: repeat eexists; cbn [bt_shape bt_at]; eauto; try discriminate.
Qed.

(** C10. [predict_SAM1] returns only when boxes, point coordinates and point
    labels are all given.  With one of them missing the call fails and the
    mask decoder is not invoked.  When [__prep_prompts] runs through with a
    prompt kind absent (no boxes, or no points; the boxes, if any, accepted
    and the point arguments paired), it returns [None] on the absent side,
    and once the image is converted and set the call fails with the
    AttributeError of [None.to]: after [set_image], before [predict_torch],
    the image context left active.  With a lone point argument, and boxes
    that are absent or have a first row, [__prep_prompts] returns nothing:
    it raises the pairing error, and the call fails with it before
    [set_image]. *)
Theorem predict_SAM1_needs_both_prompts
    (rt : Runtime) (image : ImageInput) (boxes : option (list box))
    (coords : option Points) (labels : option Labels) (w : World) :
  let out := predict_SAM1 rt image boxes coords labels w in
  (is_ok (fst out) = true -> boxes <> None /\ coords <> None /\ labels <> None)
  /\ (boxes = None \/ coords = None \/ labels = None ->
      is_ok (fst out) = false
      /\ (In EvPredictTorch (trace (snd out)) -> In EvPredictTorch (trace w)))
  /\ (forall array W H,
        change_image_instance rt image = Ok array ->
        firstn 2 (nd_shape array) = [W; H] ->
        sam_encode (SAM1 rt) array = Ok tt ->
        boxes = None \/ coords = None ->
        boxes_accepted boxes = true ->
        points_paired coords labels = true ->
        (exists tb tp lbl,
            __prep_prompts rt boxes coords labels (Some [W; H]) w
              = (Ok (tb, tp, lbl), w)
            /\ (boxes = None -> tb = None)
            /\ (coords = None -> tp = None /\ lbl = None))
        /\ out = (Raise (AttributeError none_has_no_to),
                  mk_world (attrs w) (Some array) (EvSetImage :: trace w)))
  /\ (forall array W H,
        change_image_instance rt image = Ok array ->
        firstn 2 (nd_shape array) = [W; H] ->
        points_paired coords labels = false ->
        boxes = None \/ (exists b rest, boxes = Some (b :: rest)) ->
        __prep_prompts rt boxes coords labels (Some [W; H]) w
          = (Raise (pairing_error coords labels), w)
        /\ out = (Raise (pairing_error coords labels), w)).
Proof.
  cbv zeta. split; [|split; [|split]].
  - destruct (predict_SAM1 rt image boxes coords labels w) as [[mask|e] w'] eqn:Hrun;
      cbn [fst is_ok]; [intros _ | discriminate].
    destruct (predict_SAM1_returns _ _ _ _ _ _ _ _ Hrun)
      as (? & ? & ? & ? & ? & ? & ? & ? & ? & ? & ? & _ & Hb & Hc & Hl & _).
    auto.
  - intros Habsent. unfold_methods.
    destruct Habsent as [-> | [-> | ->]]; run_cases.
    all: intuition (try discriminate; try congruence).
  - intros array W H Harr Hdims Henc Habsent Hacc Hpair.
    unfold predict_SAM1. unfold lift at 1. unfold bind at 1.
    rewrite Harr, Hdims.
    destruct (prep_boxes_accepted rt boxes W H w Hacc) as (tb & Htb & Hnone).
    assert (Hprep : __prep_prompts rt boxes coords labels (Some [W; H]) w
                    = (Ok (tb,
                           match coords with
                           | Some c => Some (apply_coords_torch (SAM1 rt) c (W, H))
                           | None => None
                           end,
                           match coords with Some _ => labels | None => None end), w)).
    { unfold __prep_prompts. cbn [unpack2]. rewrite bind_ret.
      rewrite (bind_ok _ _ _ _ _ Htb).
      destruct coords, labels; try discriminate; reflexivity. }
    split.
    + eexists _, _, _. split; [exact Hprep|]. split; [exact Hnone|].
      intros ->. split; reflexivity.
    + rewrite (bind_ok _ _ _ _ _ Hprep).
      unfold set_image, to_device, bind, raise, ret. rewrite Henc.
      destruct Habsent as [Hb | ->].
      * rewrite (Hnone Hb). destruct coords, labels; try discriminate; reflexivity.
      * reflexivity.
  - intros array W H Harr Hdims Hlone Hboxes.
    pose proof (prep_prompts_lone_point rt boxes coords labels W H w Hlone Hboxes)
      as Hprep.
    split; [exact Hprep|].
    unfold predict_SAM1. unfold lift at 1. unfold bind at 1.
    rewrite Harr, Hdims. now rewrite (bind_raise _ _ _ _ _ Hprep).
Qed.

(** No boxes, a point with its label, on an object of the class as written:
    the image is set, then [None.to] raises. *)
Lemma predict_SAM1_needs_both_prompts_witness :
  fst (predict_SAM1 (as_written 1000 demo_rt) photo None (Some one_point)
         (Some one_label) world0)
    = Raise (AttributeError none_has_no_to)
  /\ sam_ctx (snd (predict_SAM1 (as_written 1000 demo_rt) photo None
                     (Some one_point) (Some one_label) world0))
     = Some (blank [25; 30; 3]%nat).
Proof.
  pose proof (proj1 (proj2 (proj2 (predict_SAM1_needs_both_prompts
                                     (as_written 1000 demo_rt) photo None
                                     (Some one_point) (Some one_label) world0)))
                (blank [25; 30; 3]%nat) 25%nat 30%nat
                eq_refl eq_refl eq_refl (or_introl eq_refl) eq_refl eq_refl)
    as [_ Hout].
  cbv zeta in Hout. rewrite Hout. split; reflexivity.
Defined.

(** C10, as stated, fails: with no boxes and point coordinates that come
    without labels, [__prep_prompts] returns nothing for the absent side; it
    raises the pairing error, and that is how the call fails, before
    [set_image]. *)
Lemma predict_SAM1_no_boxes_lone_point :
  fst (__prep_prompts (as_written 1000 demo_rt) None (Some one_point) None
         (Some [25; 30]%nat) world0)
    = Raise (ValueError coords_without_labels)
  /\ fst (predict_SAM1 (as_written 1000 demo_rt) photo None (Some one_point)
            None world0)
     = Raise (ValueError coords_without_labels)
  /\ fst (predict_SAM1 (as_written 1000 demo_rt) photo None (Some one_point)
            None world0)
     <> Raise (AttributeError none_has_no_to)
  /\ trace (snd (predict_SAM1 (as_written 1000 demo_rt) photo None
                   (Some one_point) None world0)) = [].
Proof.
  split; [reflexivity|]. split; [reflexivity|].
  split; [discriminate | reflexivity].
Qed.

(** ** The batch segmenter *)

(** X12. A list argument whose length differs from the number of images is
    rejected with the length error, once the pairing check has passed; no
    image has been processed by then. *)
Lemma predict_SAM1_batch_length_mismatch (rt : Runtime)
    (images : list ImageInput) (boxes : option (list (option (list box))))
    (coords : option (list (option Points)))
    (labels : option (list (option Labels))) (w : World) :
  points_paired coords labels = true ->
  (exists l, boxes = Some l /\ length l <> length images)
  \/ (exists l, coords = Some l /\ length l <> length images)
  \/ (exists l, labels = Some l /\ length l <> length images) ->
  predict_SAM1_batch rt images boxes coords labels w
    = (Raise (ValueError lengths_must_match), w).
Proof.
  intros Hpair Hlen. unfold predict_SAM1_batch.
  destruct coords as [cs|], labels as [ls|]; try discriminate.
  - assert (E : (length images =? length (match boxes with
                                            | Some b => b
                                            | None => repeat None (length images)
                                            end))%nat
                && (length (match boxes with
                            | Some b => b
                            | None => repeat None (length images)
                            end) =? length cs)%nat
                && (length cs =? length ls)%nat = false).
    { destruct boxes as [bs|].
      - destruct (Nat.eqb_spec (length images) (length bs)) as [E1|]; [|reflexivity].
        destruct (Nat.eqb_spec (length bs) (length cs)) as [E2|]; [|reflexivity].
        destruct (Nat.eqb_spec (length cs) (length ls)) as [E3|]; [|reflexivity].
        exfalso.
        destruct Hlen as [(l & [= <-] & N) | [(l & [= <-] & N) | (l & [= <-] & N)]];
          apply N; congruence.
      - rewrite repeat_length, Nat.eqb_refl.
        destruct (Nat.eqb_spec (length images) (length cs)) as [E2|]; [|reflexivity].
        destruct (Nat.eqb_spec (length cs) (length ls)) as [E3|]; [|reflexivity].
        exfalso.
        destruct Hlen as [(l & [=] & N) | [(l & [= <-] & N) | (l & [= <-] & N)]];
          apply N; congruence. }
    destruct boxes as [bs|]; rewrite E; reflexivity.
  - destruct Hlen as [(l & -> & N) | [(l & [=] & _) | (l & [=] & _)]].
    rewrite !repeat_length, Nat.eqb_refl.
    destruct (Nat.eqb_spec (length images) (length l)) as [E|]; [|reflexivity].
    exfalso. apply N. congruence.
Qed.

(** With no images and no list arguments the batch is empty. *)
Lemma predict_SAM1_batch_empty (rt : Runtime) (w : World) :
  predict_SAM1_batch rt [] None None None w = (Ok [], w).
Proof. reflexivity. Qed.

(** The inner function calls [__prep_prompts] with three of its four
    arguments: it raises before anything else happens. *)
Lemma process_image_raises (rt : Runtime) (image : ImageInput)
    (box : option (list box)) (coords : option Points) (labels : option Labels)
    (w : World) :
  process_image rt image box coords labels w = (Raise (TypeError missing_dims), w).
Proof. reflexivity. Qed.

(** So does the batch call on one image or more, whenever the pairing and
    the length checks let it through. *)
Lemma predict_SAM1_batch_raises (rt : Runtime) (image : ImageInput)
    (images : list ImageInput) (boxes : list (option (list box)))
    (coords : list (option Points)) (labels : list (option Labels)) (w : World) :
  length boxes = S (length images) ->
  length coords = S (length images) ->
  length labels = S (length images) ->
  predict_SAM1_batch rt (image :: images) (Some boxes) (Some coords) (Some labels) w
    = (Raise (TypeError missing_dims), w).
Proof.
  intros Hb Hc Hl. unfold predict_SAM1_batch.
  cbn [length]. rewrite Hb, Hc, Hl, !Nat.eqb_refl. cbn [andb negb].
  destruct boxes as [|b bs]; [discriminate|].
  destruct coords as [|c cs]; [discriminate|].
  destruct labels as [|l ls]; [discriminate|].
  cbn [zip4 mapM]. apply bind_raise. apply process_image_raises.
Qed.

(** C7. One image with its own boxes, point coordinates and labels: every
    list has the length of [images], and the batch call raises a TypeError at
    the first image instead of segmenting it. *)
Theorem predict_SAM1_batch_one_image
    (rt : Runtime) (image : ImageInput) (box : option (list box))
    (coords : option Points) (labels : option Labels) (w : World) :
  predict_SAM1_batch rt [image] (Some [box]) (Some [coords]) (Some [labels]) w
    = (Raise (TypeError missing_dims), w).
Proof. reflexivity. Qed.

(** ** The detector adapter *)

(** The [Normalize] block multiplies the x coordinates by the first axis of
    the array and the y coordinates by the second. *)
Lemma normalize_boxes_scaling (rt : Runtime) (d0 d1 : nat) (rest : list nat)
    (pixel : list nat -> Z) (boxes : list box) (w : World) :
  normalize_boxes rt (mk_ndarray (d0 :: d1 :: rest) pixel) boxes w
    = (Ok (map (fun b => mk_box (bx0 b * of_nat d0) (bx1 b * of_nat d1)
                                (bx2 b * of_nat d0) (bx3 b * of_nat d1))
               (box_cxcywh_to_xyxy rt boxes)), w).
Proof. reflexivity. Qed.

(** C8. [predict_dino_batch] on no images raises: there are no results for
    the three targets of the unpacking. *)
Theorem predict_dino_batch_empty
    (rt : Runtime) (text_prompt : string) (box_threshold text_threshold : Q)
    (Normalize : bool) (w : World) :
  predict_dino_batch rt [] text_prompt box_threshold text_threshold Normalize w
    = (Raise (ValueError zip_unpack_empty), w).
Proof. reflexivity. Qed.

(** On one image or more the batch returns the three columns. *)
Lemma unzip_results_cons (r : Detection) (rs : list Detection) (w : World) :
  unzip_results (r :: rs) w
    = (Ok (map (fun r => fst (fst r)) (r :: rs),
           map (fun r => snd (fst r)) (r :: rs),
           map (fun r => snd r) (r :: rs)), w).
Proof. reflexivity. Qed.

(** ** The pipeline *)

(** No mode other than [box_predict] lets [predict_batch] return. *)
Lemma predict_batch_other_mode (rt : Runtime) (image : ImageInput)
    (text_prompt : string) (bt pbt tt : Q) (mode : string) (w : World) :
  mode <> "box_predict" ->
  is_ok (fst (predict_batch rt image text_prompt bt pbt tt mode w)) = false.
Proof.
  intros Hmode. apply String.eqb_neq in Hmode.
  unfold predict_batch. rewrite Hmode.
  unfold predict_dino, normalize_boxes, read_local, load_global, emit,
    bind, lift, ret, raise.
  run_cases. all: reflexivity.
Qed.

(** ** The module as written *)

(** With the bindings of the source, [predict_dino] stops at [self.device]
    and [predict_SAM1] cannot return. *)
Lemma as_written_predict_dino (limit : nat) (rt : Runtime) (image : ImageInput)
    (text_prompt : string) (bt tt : Q) (Normalize : bool) (w : World) :
  is_ok (fst (predict_dino (as_written limit rt) image text_prompt bt tt
                Normalize w)) = false.
Proof.
  unfold predict_dino, bind, lift. cbn [as_written load_trans_image
    change_image_instance device].
  rewrite device_getter_overflows.
  run_cases. all: reflexivity.
Qed.

Lemma as_written_predict_SAM1 (limit : nat) (rt : Runtime) (image : ImageInput)
    (boxes : option (list box)) (coords : option Points)
    (labels : option Labels) (w : World) :
  is_ok (fst (predict_SAM1 (as_written limit rt) image boxes coords labels w))
    = false.
Proof.
  destruct (predict_SAM1 (as_written limit rt) image boxes coords labels w)
    as [[mask|e] w'] eqn:Hrun; [|reflexivity].
  destruct (predict_SAM1_returns _ _ _ _ _ _ _ _ Hrun)
    as (? & ? & ? & ? & ? & ? & ? & ? & ? & ? & ? & _ & _ & _ & _ & _ & Hf & _).
  discriminate Hf.
Qed.

(** Whatever the arguments, the constructor does not return. *)
Lemma init_never_returns (env : BuildEnv) (SAM : PyArg)
    (SAM_MODEL : option string) (w : World) :
  is_ok (fst (__init__ env SAM SAM_MODEL w)) = false.
Proof.
  destruct SAM as [sam| | |]; try reflexivity.
  destruct (existsb (String.eqb sam) (SAM_NAMES_MODELS env)) eqn:E;
    [|unfold __init__; rewrite E; reflexivity].
  apply existsb_exists in E. destruct E as (x & Hin & Heq).
  apply String.eqb_eq in Heq. subst x.
  now rewrite (init_valid_selector env sam SAM_MODEL w Hin).
Qed.

(** * Further properties of the class *)

(** ** Sequencing over lists *)

Lemma mapM_length {A B} (f : A -> M B) (l : list A) (w w' : World) (ys : list B) :
  mapM f l w = (Ok ys, w') -> length ys = length l.
Proof.
  revert w w' ys. induction l as [|x xs IH]; intros w w' ys.
  - cbn. intros [= <- _]. reflexivity.
  - cbn [mapM]. unfold bind at 1.
    destruct (f x w) as [[y|e] w1]; [|discriminate].
    unfold bind at 1.
    destruct (mapM f xs w1) as [[ys'|e] w2] eqn:E; [|discriminate].
    cbn. intros [= <- _]. cbn. f_equal. exact (IH _ _ _ E).
Qed.

(** A failing [mapM] fails at the first element whose action fails, in the
    world the elements before it have left. *)
Lemma mapM_raise {A B} (f : A -> M B) (l : list A) (w w' : World) (e : Exn) :
  mapM f l w = (Raise e, w') ->
  exists pre x post ys w1,
    l = pre ++ x :: post
    /\ mapM f pre w = (Ok ys, w1)
    /\ f x w1 = (Raise e, w').
Proof.
  revert w w'. induction l as [|x xs IH]; intros w w'.
  - cbn. discriminate.
  - cbn [mapM]. unfold bind at 1.
    destruct (f x w) as [[y|e0] w1] eqn:Ex.
    + unfold bind at 1.
      destruct (mapM f xs w1) as [[ys'|e1] w2] eqn:E; [discriminate|].
      intros [= -> ->].
      destruct (IH _ _ E) as (pre & x' & post & ys & w3 & -> & Hpre & Hx).
      exists (x :: pre), x', post, (y :: ys), w3.
      split; [reflexivity|]. split; [|exact Hx].
      cbn [mapM]. unfold bind at 1. rewrite Ex.
      unfold bind at 1. rewrite Hpre. reflexivity.
    + intros [= -> ->]. exists [], x, xs, [], w.
      split; [reflexivity|]. split; [reflexivity | exact Ex].
Qed.


(** ** The constructor and the builders *)

(** X1. Whatever its arguments, the constructor raises: a TypeError for a
    selector that is no string, a ValueError for a string that is not a model
    family, and the AttributeError of the [device] assignment otherwise.  A
    rejected selector leaves the object and the log as they were.  (The
    [SAM_MODEL] check is never reached.) *)
Theorem init_outcome
    (env : BuildEnv) (SAM : PyArg) (SAM_MODEL : option string) (w : World) :
  fst (__init__ env SAM SAM_MODEL w)
    = Raise (match SAM with
             | ArgStr sam =>
                 if existsb (String.eqb sam) (SAM_NAMES_MODELS env)
                 then AttributeError "can't set attribute 'device'"
                 else ValueError "The specified SAM model does not exist."
             | _ => TypeError "The SAM model should be a single value, not a list or collection."
             end)
  /\ ((forall sam, SAM = ArgStr sam -> ~ In sam (SAM_NAMES_MODELS env)) ->
      snd (__init__ env SAM SAM_MODEL w) = w).
Proof.
  destruct SAM as [sam| | |]; try (split; reflexivity).
  destruct (existsb (String.eqb sam) (SAM_NAMES_MODELS env)) eqn:E.
  - apply existsb_exists in E. destruct E as (x & Hin & Heq).
    apply String.eqb_eq in Heq. subst x.
    rewrite (init_valid_selector env sam SAM_MODEL w Hin).
    split; [reflexivity|]. intros Hbad. exfalso. exact (Hbad sam eq_refl Hin).
  - unfold __init__. rewrite E. split; [reflexivity | intros _; reflexivity].
Qed.

Lemma init_outcome_witness :
  fst (__init__ demo_build (ArgList ["SAM1"; "SAM2"]) None world0)
    = Raise (TypeError "The SAM model should be a single value, not a list or collection.")
  /\ snd (__init__ demo_build (ArgList ["SAM1"; "SAM2"]) None world0) = world0.
Proof.
  destruct (init_outcome demo_build (ArgList ["SAM1"; "SAM2"]) None world0)
    as [Hfst Hsnd].
  split; [exact Hfst|]. apply Hsnd. intros sam Heq. discriminate Heq.
Defined.

(** X2. [__Build_SAM1] cannot build a predictor: its first statement reads
    the global [SAM1], which the module does not bind, and the handler of
    that failure formats [checkpoint_url], which is not assigned yet.  For
    every model name the call raises UnboundLocalError; nothing is fetched,
    and [self.SAM1] is not set. *)
Theorem Build_SAM1_never_builds (env : BuildEnv) (SAM : string) (w : World) :
  __Build_SAM1 env SAM w = (Raise (UnboundLocalError "checkpoint_url"), w).
Proof.
  unfold __Build_SAM1, attempt, bind. 
  assert (E : read_global "SAM1" w = (Raise (NameError "SAM1"), w)) by reflexivity.
  rewrite E. reflexivity.
Qed.

(** X3. [__Build_GroundingDINO] always ends in a RuntimeError.  When a
    download fails it is the download error; when both files arrive it is the
    loading error, because the argument [device=self.device] of [load_model]
    cannot be evaluated.  Either way the object is left without
    [groundingdino] and no detector is loaded; the configuration file is
    requested first, the checkpoint second. *)
Theorem Build_GroundingDINO_fails (env : BuildEnv) (w : World) :
  exists msg w',
    __Build_GroundingDINO env w = (Raise (RuntimeError msg), w')
    /\ attrs w' = attrs w
    /\ sam_ctx w' = sam_ctx w
    /\ (trace w' = EvDownload "GroundingDINO_SwinT_OGC.cfg.py" :: trace w
        \/ trace w' = EvDownload "groundingdino_swint_ogc.pth"
                        :: EvDownload "GroundingDINO_SwinT_OGC.cfg.py" :: trace w)
    /\ ((exists cfg pth,
           hf_hub_download env "ShilongLiu/GroundingDINO"
             "GroundingDINO_SwinT_OGC.cfg.py" = Ok cfg
           /\ hf_hub_download env "ShilongLiu/GroundingDINO"
                "groundingdino_swint_ogc.pth" = Ok pth)
        <-> msg = "An error occurred while loading the GroundingDINO model").
Proof.
  unfold __Build_GroundingDINO, download, try_except, bind, emit, lift, ret, raise.
  cbv zeta.
  destruct (hf_hub_download env "ShilongLiu/GroundingDINO"
              "GroundingDINO_SwinT_OGC.cfg.py") as [cfg|e1] eqn:E1.
  - destruct (hf_hub_download env "ShilongLiu/GroundingDINO"
                "groundingdino_swint_ogc.pth") as [pth|e2] eqn:E2.
    + unfold getattr. cbn [find_property find GSamNetwork_properties prop_name
        String.eqb Ascii.eqb Bool.eqb]. unfold lift.
      rewrite device_getter_overflows.
      eexists _, _. split; [reflexivity|]. cbn [attrs sam_ctx trace].
      repeat split; auto. exists cfg, pth. split; reflexivity.
    + eexists _, _. split; [reflexivity|]. cbn [attrs sam_ctx trace].
      repeat split; auto; try discriminate.
      intros (cfg' & pth & _ & H). discriminate H.
  - eexists _, _. split; [reflexivity|]. cbn [attrs sam_ctx trace].
    repeat split; auto; try discriminate.
    intros (cfg & pth & H & _). discriminate H.
Qed.

(** X5. [reset_model] reads [self.sam], an attribute no method of the class
    assigns: on an object without [sam] the constructor and the two builders
    leave it without [sam], and [reset_model] raises AttributeError there;
    the segmenter keeps the image it holds, also when a predictor is stored
    under [SAM1]. *)
Theorem reset_model_fails
    (env : BuildEnv) (SAM : PyArg) (SAM_MODEL : option string) (name : string)
    (limit : nat) (w : World) :
  attrs w !! "sam" = None ->
  reset_model limit w
    = (Raise (AttributeError "'GSamNetwork' object has no attribute 'sam'"), w)
  /\ attrs (snd (__init__ env SAM SAM_MODEL w)) !! "sam" = None
  /\ attrs (snd (__Build_GroundingDINO env w)) !! "sam" = None
  /\ attrs (snd (__Build_SAM1 env name w)) !! "sam" = None.
Proof.
  intros Hsam. split; [|split; [|split]].
  - unfold reset_model, bind, getattr.
    cbn [find_property find GSamNetwork_properties prop_name
         String.eqb Ascii.eqb Bool.eqb].
    rewrite Hsam. reflexivity.
  - destruct SAM as [sam| | |]; try exact Hsam.
    destruct (existsb (String.eqb sam) (SAM_NAMES_MODELS env)) eqn:E.
    + apply existsb_exists in E. destruct E as (x & Hin & Heq).
      apply String.eqb_eq in Heq. subst x.
      rewrite (init_valid_selector env sam SAM_MODEL w Hin).
      unfold world_at_device; cbn [snd attrs].
      rewrite !lookup_insert_ne by discriminate. exact Hsam.
    + unfold __init__. rewrite E. exact Hsam.
  - unfold __Build_GroundingDINO, download, try_except, bind, emit, lift, ret,
      raise, getattr. cbv zeta.
    cbn [find_property find GSamNetwork_properties prop_name
         String.eqb Ascii.eqb Bool.eqb]. unfold lift.
    rewrite device_getter_overflows.
    repeat case_step; cbn [snd attrs]; exact Hsam.
  - unfold __Build_SAM1, attempt, bind.
    assert (E : read_global "SAM1" w = (Raise (NameError "SAM1"), w))
      by reflexivity.
    rewrite E. exact Hsam.
Qed.

Lemma reset_model_fails_witness :
  attrs busy_world !! "sam" = None
  /\ sam_ctx (snd (reset_model 1000 busy_world)) = Some (blank [25; 30; 3]%nat).
Proof.
  assert (Hsam : attrs busy_world !! "sam" = None).
  { unfold busy_world; cbn [attrs].
    rewrite lookup_insert_ne by discriminate. apply lookup_empty. }
  split; [exact Hsam|].
  rewrite (proj1 (reset_model_fails demo_build (ArgStr "SAM1") None "vit_h"
                    1000 busy_world Hsam)).
  reflexivity.
Defined.

(** ** Prompt preparation and the segmenter *)

Lemma boxes_accepted_in_unit (boxes : option (list box)) :
  boxes_accepted boxes = true <-> first_in_unit boxes.
Proof.
  unfold first_in_unit. destruct boxes as [[|b rest]|]; cbn [boxes_accepted].
  - split; [discriminate|]. intros [H | (b & rest & H & _)]; discriminate H.
  - rewrite np_clip_unit_fixed. split.
    + intros H. right. exists b, rest. split; [reflexivity | exact H].
    + intros [H | (b' & rest' & [= <- <-] & H)]; [discriminate H | exact H].
  - split; [intros _; left; reflexivity | reflexivity].
Qed.

(** X6. [__prep_prompts] returns exactly when the boxes are absent or have
    their first coordinate within [0,1], and the point arguments are paired.
    It then returns every box row converted to corners, scaled and mapped
    to the segmenter's frame (whatever the other coordinates are), the
    points mapped likewise, and the labels as given; it changes nothing in
    the world. *)
Theorem prep_prompts_returns
    (rt : Runtime) (boxes : option (list box)) (coords : option Points)
    (labels : option Labels) (W H : nat) (w : World) :
  (first_in_unit boxes -> points_paired coords labels = true ->
   __prep_prompts rt boxes coords labels (Some [W; H]) w
     = (Ok (prepared rt boxes coords labels W H), w))
  /\ (is_ok (fst (__prep_prompts rt boxes coords labels (Some [W; H]) w)) = true ->
      first_in_unit boxes /\ points_paired coords labels = true).
Proof.
  split.
  - intros Hunit Hpair. apply boxes_accepted_in_unit in Hunit.
    unfold __prep_prompts, prep_boxes, first_coordinate, unpack2, read_local,
      bind, ret, raise, prepared.
    destruct boxes as [[|b rest]|]; cbn [boxes_accepted] in Hunit;
      try discriminate; try rewrite Hunit;
      destruct coords, labels; try discriminate; reflexivity.
  - rewrite <- boxes_accepted_in_unit.
    unfold __prep_prompts, prep_boxes, first_coordinate, unpack2, read_local,
      bind, ret, raise.
    destruct boxes as [[|b rest]|]; cbn [boxes_accepted];
      try (destruct (Qeq_bool (np_clip (bx0 b) 0 1) (bx0 b)));
      destruct coords, labels; cbn; intros Hok; try discriminate;
      split; reflexivity.
Qed.

Lemma prep_prompts_returns_witness :
  first_in_unit (Some [centred_box])
  /\ __prep_prompts demo_rt (Some [centred_box]) (Some one_point) (Some one_label)
       (Some [25; 30]%nat) world0
     = (Ok (prepared demo_rt (Some [centred_box]) (Some one_point)
              (Some one_label) 25 30), world0).
Proof.
  assert (Hunit : first_in_unit (Some [centred_box])).
  { right. exists centred_box, []. split; [reflexivity|].
    split; discriminate. }
  split; [exact Hunit|].
  exact (proj1 (prep_prompts_returns demo_rt (Some [centred_box])
                  (Some one_point) (Some one_label) 25 30 world0)
           Hunit eq_refl).
Defined.

(** X7. A call of [predict_SAM1] that returns has set the image, run the
    mask decoder and released the image, once each and in this order, and
    has touched nothing else. *)
Theorem predict_SAM1_order
    (rt : Runtime) (image : ImageInput) (boxes : option (list box))
    (coords : option Points) (labels : option Labels)
    (w w' : World) (mask : BoolTensor) :
  predict_SAM1 rt image boxes coords labels w = (Ok mask, w') ->
  trace w' = EvResetImage :: EvPredictTorch :: EvSetImage :: trace w
  /\ sam_ctx w' = None
  /\ attrs w' = attrs w.
Proof.
  unfold_methods. run_cases.
  all: try discriminate.
  all: intros [= _ <-]; repeat split.
Qed.

Lemma predict_SAM1_order_witness :
  exists mask w',
    predict_SAM1 demo_rt photo (Some [centred_box]) (Some one_point)
      (Some one_label) world0 = (Ok mask, w')
    /\ trace w' = [EvResetImage; EvPredictTorch; EvSetImage].
Proof.
  destruct (predict_SAM1 demo_rt photo (Some [centred_box]) (Some one_point)
              (Some one_label) world0) as [[mask|e] w'] eqn:Hrun.
  - exists mask, w'. split; [reflexivity|].
    exact (proj1 (predict_SAM1_order _ _ _ _ _ _ _ _ Hrun)).
  - exfalso. vm_compute in Hrun. discriminate.
Defined.

(** X8. When the area filter keeps no instance, the combined mask is all
    false: the OR over no masks, in the shape height x width x channel of
    the filtered tensor. *)
Theorem combine_masks_no_survivor
    (rt : Runtime) (area_filter : BoolTensor -> Z -> Outcome BoolTensor)
    (masks kept : BoolTensor) (c h wd : nat) (w : World) :
  postprocess_masks rt = Some area_filter ->
  area_filter masks 500%Z = Ok kept ->
  bt_shape kept = [0; c; h; wd]%nat ->
  exists mask,
    combine_masks rt masks w = (Ok mask, w)
    /\ bt_shape mask = [h; wd; c]
    /\ forall idx, bt_at mask idx = false.
Proof.
  intros Hbound Hkept Hshape.
  unfold combine_masks, load_global, bind, lift, torch_any_dim0, permute_1_2_0,
    ret. rewrite Hbound, Hkept, Hshape. cbn [bt_shape].
  eexists. split; [reflexivity|]. split; [reflexivity|].
  intros idx. cbn [bt_at]. destruct idx as [|i [|j [|k [|? ?]]]]; reflexivity.
Qed.

Lemma combine_masks_no_survivor_witness :
  exists mask,
    combine_masks demo_rt specks world0 = (Ok mask, world0)
    /\ bt_shape mask = [25; 30; 1]%nat
    /\ forall idx, bt_at mask idx = false.
Proof.
  refine (combine_masks_no_survivor demo_rt filter_by_area specks
            (match filter_by_area specks 500%Z with
             | Ok kept => kept
             | Raise _ => specks
             end) 1 25 30 world0 eq_refl eq_refl _).
  vm_compute. reflexivity.
Defined.

(** ** The batch entry points *)



(** X10. [predict_dino_batch] on one image or more fails as soon as one
    detection fails, with the error of that image: the images before it
    have been processed, the images after it are not looked at, and no
    partial result comes back. *)
Theorem predict_dino_batch_first_failure
    (rt : Runtime) (imgs : list ImageInput) (text_prompt : string)
    (box_threshold text_threshold : Q) (Normalize : bool) (w w' : World)
    (e : Exn) :
  imgs <> [] ->
  predict_dino_batch rt imgs text_prompt box_threshold text_threshold
    Normalize w = (Raise e, w') ->
  exists pre image post results w1,
    imgs = pre ++ image :: post
    /\ mapM (fun image => predict_dino rt image text_prompt box_threshold
                            text_threshold Normalize) pre w = (Ok results, w1)
    /\ predict_dino rt image text_prompt box_threshold text_threshold
         Normalize w1 = (Raise e, w').
Proof.
  intros Hne. unfold predict_dino_batch. unfold bind at 1.
  destruct (mapM _ imgs w) as [[results|e0] w1] eqn:Hmap.
  - pose proof (mapM_length _ _ _ _ _ Hmap) as Hlen.
    destruct results as [|r rs]; cbn [unzip_results].
    + destruct imgs; [contradiction | discriminate Hlen].
    + discriminate.
  - intros [= -> ->]. exact (mapM_raise _ _ _ _ _ Hmap).
Qed.

Lemma predict_dino_batch_first_failure_witness :
  exists results w1,
    mapM (fun image => predict_dino picky_rt image "dog" (3 # 10) (1 # 4) false)
      [photo] world0 = (Ok results, w1)
    /\ fst (predict_dino picky_rt tensor_image "dog" (3 # 10) (1 # 4) false w1)
       = Raise (TypeError "unsupported image type")
    /\ length results = 1%nat.
Proof.
  destruct (predict_dino_batch picky_rt [photo; tensor_image; small_image] "dog"
              (3 # 10) (1 # 4) false world0) as [[r|e] w'] eqn:Hrun.
  - exfalso. vm_compute in Hrun. discriminate.
  - assert (He : e = TypeError "unsupported image type").
    { vm_compute in Hrun. injection Hrun as <- _. reflexivity. }
    destruct (predict_dino_batch_first_failure picky_rt
                [photo; tensor_image; small_image] "dog" (3 # 10) (1 # 4)
                false world0 w' e ltac:(discriminate) Hrun)
      as (pre & image & post & results & w1 & Hsplit & Hpre & Himg).
    destruct pre as [|p0 [|p1 pre]].
    + exfalso. injection Hsplit as <- _. vm_compute in Himg. discriminate.
    + injection Hsplit as <- <- _.
      exists results, w1. split; [exact Hpre|].
      split; [rewrite Himg, He; reflexivity|].
      exact (mapM_length _ _ _ _ _ Hpre).
    + exfalso. injection Hsplit as <- <- Hrest.
      apply mapM_length in Hpre as Hlen.
      cbn [mapM] in Hpre. vm_compute in Hpre. discriminate.
Defined.

Lemma predict_SAM1_batch_lone_point_witness :
  points_paired (Some [Some one_point]) (@None (list (option Labels))) = false
  /\ predict_SAM1_batch demo_rt [photo; small_image] (Some []) (Some [Some one_point])
       None world0
     = (Raise (ValueError coords_without_labels), world0).
Proof.
  split; [reflexivity|].
  exact (predict_SAM1_batch_lone_point demo_rt [photo; small_image] (Some [])
           (Some [Some one_point]) None world0 eq_refl).
Defined.

Lemma predict_SAM1_batch_length_mismatch_witness :
  predict_SAM1_batch demo_rt [photo; small_image] (Some [Some [centred_box]])
    None None world0
  = (Raise (ValueError lengths_must_match), world0).
Proof.
  apply (predict_SAM1_batch_length_mismatch demo_rt [photo; small_image]
           (Some [Some [centred_box]]) None None world0 eq_refl).
  left. exists [Some [centred_box]]. split; [reflexivity|]. cbn. lia.
Defined.

(** X13. [predict_SAM1_batch] returns only for an empty batch, and then
    returns the empty list without touching the segmenter: on one image or
    more every path through the method raises. *)
Theorem predict_SAM1_batch_returns_only_empty
    (rt : Runtime) (imgs : list ImageInput)
    (boxes : option (list (option (list box))))
    (coords : option (list (option Points)))
    (labels : option (list (option Labels)))
    (w w' : World) (results : list BoolTensor) :
  predict_SAM1_batch rt imgs boxes coords labels w = (Ok results, w') ->
  imgs = [] /\ results = [] /\ w' = w.
Proof.
  unfold predict_SAM1_batch.
  assert (Hrun : forall (bs : list (option (list box)))
                        (cs : list (option Points)) (ls : list (option Labels)),
             (if negb ((length imgs =? length bs)%nat
                       && (length bs =? length cs)%nat
                       && (length cs =? length ls)%nat)
              then raise (ValueError lengths_must_match)
              else mapM (fun item => let '(image, box, c, l) := item in
                                     process_image rt image box c l)
                        (zip4 imgs bs cs ls)) w = (Ok results, w') ->
             imgs = [] /\ results = [] /\ w' = w).
  { intros bs cs ls.
    destruct (Nat.eqb_spec (length imgs) (length bs)) as [E1|]; [|discriminate].
    destruct (Nat.eqb_spec (length bs) (length cs)) as [E2|]; [|discriminate].
    destruct (Nat.eqb_spec (length cs) (length ls)) as [E3|]; [|discriminate].
    cbn [andb negb].
    destruct imgs as [|image rest].
    - cbn. intros [= <- <-]. repeat split.
    - destruct bs as [|b bs']; [discriminate E1|].
      destruct cs as [|c cs']; [discriminate E2|].
      destruct ls as [|l ls']; [discriminate E3|].
      cbn [zip4 mapM]. rewrite (bind_raise _ _ _ _ _ (process_image_raises _ _ _ _ _ _)).
      discriminate. }
  destruct coords as [cs|], labels as [ls|]; try discriminate; apply Hrun.
Qed.

Lemma predict_SAM1_batch_returns_only_empty_witness :
  predict_SAM1_batch demo_rt [] (Some []) (Some []) (Some []) world0
  = (Ok [], world0).
Proof.
  destruct (predict_SAM1_batch demo_rt [] (Some []) (Some []) (Some []) world0)
    as [[results|e] w'] eqn:Hrun.
  - destruct (predict_SAM1_batch_returns_only_empty _ _ _ _ _ _ _ _ Hrun)
      as (_ & -> & ->). reflexivity.
  - exfalso. vm_compute in Hrun. discriminate.
Defined.

(** ** The pipeline and the corpus loop *)

(** X14. The class defines no [predict_sam_with_boxes]: on an object whose
    class is the only source of its methods, [predict_batch] returns for no
    mode at all.  [box_predict] ends in the AttributeError of the missing
    method, any other mode in the unbound [masks], unless detection or box
    filtering has failed before. *)
Theorem predict_batch_never_returns
    (rt : Runtime) (image : ImageInput) (text_prompt : string)
    (bt pbt tt : Q) (mode : string) (w : World) :
  predict_sam_with_boxes rt = None ->
  is_ok (fst (predict_batch rt image text_prompt bt pbt tt mode w)) = false.
Proof.
  intros Hmissing. unfold predict_batch. rewrite Hmissing.
  unfold predict_dino, normalize_boxes, read_local, load_global, emit,
    bind, lift, ret, raise.
  run_cases. all: reflexivity.
Qed.

Lemma predict_batch_never_returns_witness :
  predict_sam_with_boxes demo_rt = None
  /\ is_ok (fst (predict_batch demo_rt photo "dog" (3 # 10) (3 # 10) (1 # 4)
                   "box_predict" world0)) = false.
Proof.
  split; [reflexivity|].
  exact (predict_batch_never_returns demo_rt photo "dog" (3 # 10) (3 # 10)
           (1 # 4) "box_predict" world0 eq_refl).
Defined.

(** ** The methods on an object of the class as written *)

Lemma as_written_device (limit : nat) (rt : Runtime) :
  device (as_written limit rt) = Raise RecursionError.
Proof. cbn [as_written device]. now rewrite device_getter_overflows. Qed.

Lemma as_written_postprocess_masks (limit : nat) (rt : Runtime) :
  postprocess_masks (as_written limit rt) = None.
Proof. reflexivity. Qed.

(** X15. With [device] the property the class declares, [predict_dino]
    never returns and never reaches the detector: once the image has been
    converted, evaluating the argument [device=self.device] of the detector
    call raises RecursionError.  The world is left as it was. *)
Theorem predict_dino_as_written
    (limit : nat) (rt : Runtime) (image : ImageInput) (text_prompt : string)
    (bt tt : Q) (Normalize : bool) (w : World) :
  let out := predict_dino (as_written limit rt) image text_prompt bt tt
               Normalize w in
  snd out = w
  /\ is_ok (fst out) = false
  /\ (forall a b,
        load_trans_image rt image = Ok a ->
        change_image_instance rt image = Ok b ->
        fst out = Raise RecursionError).
Proof.
  cbv zeta. unfold predict_dino. rewrite as_written_device.
  unfold bind, lift. cbn [as_written load_trans_image change_image_instance].
  destruct (load_trans_image rt image) as [a|e1];
    destruct (change_image_instance rt image) as [b|e2]; cbn [fst snd is_ok];
    repeat split; intros; try discriminate.
Qed.

Lemma predict_dino_as_written_witness :
  load_trans_image demo_rt photo = Ok (blank [25; 30; 3]%nat)
  /\ predict_dino (as_written 1000 demo_rt) photo "dog" (3 # 10) (1 # 4) true world0
     = (Raise RecursionError, world0).
Proof.
  split; [reflexivity|].
  destruct (predict_dino_as_written 1000 demo_rt photo "dog" (3 # 10) (1 # 4)
              true world0) as (Hw & _ & He).
  cbv zeta in Hw, He.
  specialize (He _ _ eq_refl eq_refl).
  destruct (predict_dino (as_written 1000 demo_rt) photo "dog" (3 # 10) (1 # 4)
              true world0) as [r w'].
  cbn [fst snd] in Hw, He. now subst.
Defined.

(** X16. With the helpers the module imports, [predict_SAM1] never returns:
    [postprocess_masks] is not among the imported names.  A call that gets
    as far as releasing the image (prompts accepted, image set, masks
    predicted) ends in NameError, with the image context released. *)
Theorem predict_SAM1_as_written
    (limit : nat) (rt : Runtime) (image : ImageInput)
    (boxes : option (list box)) (coords : option Points)
    (labels : option Labels) (ctx0 : option ndarray) :
  let out := predict_SAM1 (as_written limit rt) image boxes coords labels
               (mk_world ∅ ctx0 []) in
  is_ok (fst out) = false
  /\ (In EvResetImage (trace (snd out)) ->
      fst out = Raise (NameError "postprocess_masks")
      /\ sam_ctx (snd out) = None).
Proof.
  cbv zeta. unfold_methods.
  rewrite as_written_postprocess_masks.
  run_cases.
  all: intuition (try discriminate; try congruence).
Qed.

Lemma predict_SAM1_as_written_witness :
  In EvResetImage
    (trace (snd (predict_SAM1 (as_written 1000 demo_rt) photo (Some [centred_box])
                   (Some one_point) (Some one_label) (mk_world ∅ None []))))
  /\ fst (predict_SAM1 (as_written 1000 demo_rt) photo (Some [centred_box])
            (Some one_point) (Some one_label) (mk_world ∅ None []))
     = Raise (NameError "postprocess_masks").
Proof.
  assert (Hin : In EvResetImage
            (trace (snd (predict_SAM1 (as_written 1000 demo_rt) photo
                           (Some [centred_box]) (Some one_point)
                           (Some one_label) (mk_world ∅ None []))))).
  { vm_compute. left. reflexivity. }
  split; [exact Hin|].
  exact (proj1 (proj2 (predict_SAM1_as_written 1000 demo_rt photo
                         (Some [centred_box]) (Some one_point)
                         (Some one_label) None) Hin)).
Defined.

(** ** [LangSam_batch] *)

Lemma corpus_group_no_images (rt : Runtime) (text_prompt : string)
    (bt pbt tt : Q) (mode_predict mode_data : string)
    (st : Local PipelineResult * Corpus) (g : Group) (w : World) :
  no_images g ->
  corpus_group rt text_prompt bt pbt tt mode_predict mode_data st g w = (Ok st, w).
Proof. unfold no_images, corpus_group. intros ->. reflexivity. Qed.

(** X17. On a corpus without images (no group, or groups that hold no
    image) [LangSam_batch] returns seven empty sequences, for every mode,
    and runs no model. *)
Theorem LangSam_batch_no_images
    (rt : Runtime) (text_prompt : string) (bt pbt tt : Q)
    (mode_predict mode_data : string) (image_data : list Group) (w : World) :
  Forall no_images image_data ->
  LangSam_batch rt text_prompt bt pbt tt mode_predict mode_data image_data w
    = (Ok empty_corpus, w).
Proof.
  intros Hall. unfold LangSam_batch.
  assert (H : forall st,
             foldM (corpus_group rt text_prompt bt pbt tt mode_predict mode_data)
               st image_data w = (Ok st, w)).
  { induction Hall as [|g gs Hg _ IH]; intros st; [reflexivity|].
    cbn [foldM]. rewrite (bind_ok _ _ _ _ _ (corpus_group_no_images _ _ _ _ _ _ _ st g w Hg)).
    apply IH. }
  rewrite (bind_ok _ _ _ _ _ (H _)). reflexivity.
Qed.

Lemma LangSam_batch_no_images_witness :
  Forall no_images [mk_group [] [] []; mk_group [] [blank [2; 3]%nat] []]
  /\ LangSam_batch demo_rt "dog" (3 # 10) (3 # 10) (1 # 4) "box_predict" "batch"
       [mk_group [] [] []; mk_group [] [blank [2; 3]%nat] []] world0
     = (Ok empty_corpus, world0).
Proof.
  assert (H : Forall no_images
                [mk_group [] [] []; mk_group [] [blank [2; 3]%nat] []]).
  { repeat constructor. }
  split; [exact H|].
  exact (LangSam_batch_no_images demo_rt "dog" (3 # 10) (3 # 10) (1 # 4)
           "box_predict" "batch" _ world0 H).
Defined.

Lemma corpus_group_other_mode (rt : Runtime) (text_prompt : string)
    (bt pbt tt : Q) (mode_predict mode_data : string)
    (acc : Corpus) (g : Group) (w : World) :
  mode_data <> "batch" ->
  well_formed g ->
  ~ no_images g ->
  corpus_group rt text_prompt bt pbt tt mode_predict mode_data (Unbound, acc) g w
    = (Raise (UnboundLocalError "boxes"), w).
Proof.
  intros Hmode [Hm Hi] Hne. apply String.eqb_neq in Hmode.
  unfold no_images in Hne. unfold corpus_group.
  destruct g as [imgs masks idents]. cbn [grp_images grp_masks grp_ids] in *.
  destruct imgs as [|image rest]; [contradiction|].
  destruct masks as [|m ms]; [discriminate Hm|].
  destruct idents as [|i0 is0]; [discriminate Hi|].
  cbn [length seq foldM]. apply bind_raise.
  unfold corpus_round, getitem, bind, ret, read_local, raise.
  cbn [grp_images grp_masks grp_ids lookup list_lookup].
  rewrite Hmode. reflexivity.
Qed.

(** X18. With a [mode_data] other than [batch] nothing assigns the locals
    of the loop: on a corpus whose groups carry a mask and an identifier per
    image, [LangSam_batch] raises UnboundLocalError at the first image it
    meets, before any model has been run. *)
Theorem LangSam_batch_other_mode_data
    (rt : Runtime) (text_prompt : string) (bt pbt tt : Q)
    (mode_predict mode_data : string) (image_data : list Group) (w : World) :
  mode_data <> "batch" ->
  Forall well_formed image_data ->
  Exists (fun g => ~ no_images g) image_data ->
  LangSam_batch rt text_prompt bt pbt tt mode_predict mode_data image_data w
    = (Raise (UnboundLocalError "boxes"), w).
Proof.
  intros Hmode Hwf Hex. unfold LangSam_batch. apply bind_raise.
  generalize empty_corpus as acc.
  induction image_data as [|g gs IH]; intros acc.
  - inversion Hex.
  - inversion Hwf as [|? ? Hg Hgs]; subst.
    cbn [foldM].
    destruct (grp_images g) as [|image rest] eqn:Eimgs.
    + rewrite (bind_ok _ _ _ _ _
                 (corpus_group_no_images _ _ _ _ _ _ _ (Unbound, acc) g w Eimgs)).
      apply IH; [exact Hgs|].
      inversion Hex as [? ? Hhere | ? ? Hthere]; subst; [|exact Hthere].
      exfalso. apply Hhere. exact Eimgs.
    + apply bind_raise. apply corpus_group_other_mode; try assumption.
      unfold no_images. rewrite Eimgs. discriminate.
Qed.

Lemma LangSam_batch_other_mode_data_witness :
  LangSam_batch demo_rt "dog" (3 # 10) (3 # 10) (1 # 4) "box_predict" "single"
    [mk_group [] [] []; two_photos] world0
  = (Raise (UnboundLocalError "boxes"), world0).
Proof.
  apply (LangSam_batch_other_mode_data demo_rt "dog" (3 # 10) (3 # 10) (1 # 4)
           "box_predict" "single" [mk_group [] [] []; two_photos] world0).
  - discriminate.
  - repeat constructor.
  - right. left. unfold no_images. discriminate.
Defined.





(** ** [plot_grid] *)

(** Actions that leave the world alone, repeated, leave it alone. *)
Lemma mapM_same_world {A B} (f : A -> M B) (l : list A) :
  (forall x w, snd (f x w) = w) ->
  forall w, snd (mapM f l w) = w.
Proof.
  intros Hf. induction l as [|x xs IH]; intros w; [reflexivity|].
  cbn [mapM]. unfold bind at 1.
  pose proof (Hf x w) as Hx. destruct (f x w) as [[y|e] w1]; cbn [snd] in Hx;
    subst w1; [|reflexivity].
  unfold bind at 1.
  pose proof (IH w) as Hxs. destruct (mapM f xs w) as [[ys|e] w2];
    cbn [snd] in Hxs; subst w2; reflexivity.
Qed.

Lemma mapM_each_ok {A B} (f : A -> M B) (l : list A) (w w' : World) (ys : list B) :
  mapM f l w = (Ok ys, w') ->
  forall x, In x l -> exists w1, is_ok (fst (f x w1)) = true.
Proof.
  revert w w' ys. induction l as [|x xs IH]; intros w w' ys Hrun z Hin.
  - destruct Hin.
  - cbn [mapM] in Hrun. unfold bind at 1 in Hrun.
    destruct (f x w) as [[y|e] w1] eqn:Ex; [|discriminate].
    unfold bind at 1 in Hrun.
    destruct (mapM f xs w1) as [[ys'|e] w2] eqn:Exs; [|discriminate].
    destruct Hin as [<- | Hin].
    + exists w. now rewrite Ex.
    + exact (IH _ _ _ Exs z Hin).
Qed.

Lemma grid_has_room (n : nat) : (n < 8 * (n / 8 + 1))%nat.
Proof.
  pose proof (Nat.div_mod_eq n 8) as Hdiv.
  pose proof (Nat.mod_upper_bound n 8 ltac:(discriminate)) as Hmod.
  lia.
Qed.

Section VisualsFacts.

Variable convert : ImageInput -> Outcome ndarray.
Variable annotate :
  ImageInput -> list box -> list Q -> list string -> Outcome ndarray.

Lemma truncate_inputs_result (imag_max : Z) (imgs : list ImageInput)
    (idss : list Z) (boxes : list (list box)) (logits : list (list Q))
    (phrases : list (list string)) (w w' : World)
    (imgs' : list ImageInput) (idss' : list Z) (boxes' : list (list box))
    (logits' : list (list Q)) (phrases' : list (list string)) :
  truncate_inputs convert imag_max imgs idss boxes logits phrases w
    = (Ok (imgs', idss', boxes', logits', phrases'), w') ->
  if (imag_max <? Z.of_nat (length imgs))%Z
  then length imgs' = Nat.min 20 (length imgs) /\ idss' = firstn 20 idss
       /\ boxes' = firstn 20 boxes /\ logits' = firstn 20 logits
       /\ phrases' = firstn 20 phrases
       /\ trace w' = EvPrint truncation_warning :: trace w
  else imgs' = imgs /\ idss' = idss /\ boxes' = boxes /\ logits' = logits
       /\ phrases' = phrases /\ w' = w.
Proof.
  unfold truncate_inputs.
  destruct (imag_max <? Z.of_nat (length imgs))%Z.
  - unfold print, emit. unfold bind at 1. cbv zeta. unfold bind at 1.
    match goal with
    | |- context [mapM ?f ?l ?w0] =>
        pose proof (mapM_same_world f l
                      ltac:(intros x w1; unfold bind, lift, ret;
                            destruct (convert x); reflexivity) w0) as Hw;
        destruct (mapM f l w0) as [[converted|e] w1] eqn:Hmap
    end; [|discriminate].
    cbn [snd] in Hw. subst w1.
    apply mapM_length in Hmap. rewrite length_firstn in Hmap.
    intros [= <- <- <- <- <- <-]. cbn [trace]. repeat split; assumption.
  - intros [= <- <- <- <- <- <-]. repeat split.
Qed.

(** X20. Whenever [plot_grid] reaches the plotting call, the grid it asks
    for has 8 rows and room for more frames than there are: the frames
    always fit. *)
Theorem plot_grid_capacity
    (imgs : list ImageInput) (idss : list Z) (boxes : list (list box))
    (logits : list (list Q)) (phrases : list (list string))
    (args : gmap string Z) (w w' : World) (gp : GridPlot) :
  plot_grid convert annotate imgs idss boxes logits phrases args w = (Ok gp, w') ->
  fst (gp_grid_size gp) = 8%nat
  /\ (length (gp_images gp) < fst (gp_grid_size gp) * snd (gp_grid_size gp))%nat.
Proof.
  unfold plot_grid. cbv zeta. unfold bind at 1.
  destruct (truncate_inputs _ _ _ _ _ _ _ w) as [[[[[[i' d'] b'] l'] p']|e] w1];
    [|discriminate].
  unfold bind at 1.
  destruct (mapM _ _ w1) as [[frames|e] w2]; [|discriminate].
  intros [= <- _]. split; [reflexivity|].
  exact (grid_has_room (length frames)).
Qed.

(** X21. With more images than [image_max] (10 when the argument is not
    given), [plot_grid] prints its warning and keeps the first 20 entries of
    every list, whatever [image_max] is; otherwise it keeps them all.  The
    plot has one frame per box list kept and the identifiers kept as
    titles. *)
Theorem plot_grid_frames
    (imgs : list ImageInput) (idss : list Z) (boxes : list (list box))
    (logits : list (list Q)) (phrases : list (list string))
    (args : gmap string Z) (w w' : World) (gp : GridPlot) :
  plot_grid convert annotate imgs idss boxes logits phrases args w = (Ok gp, w') ->
  if truncates args imgs
  then length (gp_images gp) = Nat.min 20 (length boxes)
       /\ gp_titles gp = firstn 20 idss
       /\ trace w' = EvPrint truncation_warning :: trace w
  else length (gp_images gp) = length boxes
       /\ gp_titles gp = idss
       /\ w' = w.
Proof.
  unfold plot_grid, truncates. cbv zeta. unfold bind at 1.
  destruct (truncate_inputs _ _ _ _ _ _ _ w) as [[[[[[i' d'] b'] l'] p']|e] w1] eqn:Ht;
    [|discriminate].
  apply truncate_inputs_result in Ht.
  unfold bind at 1.
  match goal with
  | |- context [mapM ?f ?l ?w0] =>
      pose proof (mapM_same_world f l
                    ltac:(intros x w2; unfold getitem, bind, lift, ret, raise;
                          repeat case_step; reflexivity) w0) as Hw;
      destruct (mapM f l w0) as [[frames|e] w2] eqn:Hmap
  end; [|discriminate].
  cbn [snd] in Hw. subst w2.
  apply mapM_length in Hmap. rewrite length_seq in Hmap.
  intros [= <- <-]. cbn [gp_images gp_titles].
  destruct (default 10%Z (args !! "image_max") <? Z.of_nat (length imgs))%Z.
  - destruct Ht as (_ & -> & -> & _ & _ & Htrace).
    rewrite length_firstn in Hmap. repeat split; assumption.
  - destruct Ht as (_ & -> & -> & _ & _ & ->). repeat split; assumption.
Qed.

(** X22. [plot_grid] plots only when every box list kept has an image, a
    score list and a phrase list at its index: the loop runs over the
    boxes, and a shorter list of images, scores or phrases makes it raise
    (IndexError, unless an annotation has failed before). *)
Theorem plot_grid_needs_entries
    (imgs : list ImageInput) (idss : list Z) (boxes : list (list box))
    (logits : list (list Q)) (phrases : list (list string))
    (args : gmap string Z) (w w' : World) (gp : GridPlot) :
  plot_grid convert annotate imgs idss boxes logits phrases args w = (Ok gp, w') ->
  (length (gp_images gp) <= length imgs)%nat
  /\ (length (gp_images gp) <= length logits)%nat
  /\ (length (gp_images gp) <= length phrases)%nat.
Proof.
  unfold plot_grid. cbv zeta. unfold bind at 1.
  destruct (truncate_inputs _ _ _ _ _ _ _ w) as [[[[[[i' d'] b'] l'] p']|e] w1] eqn:Ht;
    [|discriminate].
  apply truncate_inputs_result in Ht.
  unfold bind at 1.
  destruct (mapM _ _ w1) as [[frames|e] w2] eqn:Hmap; [|discriminate].
  intros [= <- _]. cbn [gp_images].
  pose proof (mapM_length _ _ _ _ _ Hmap) as Hlen. rewrite length_seq in Hlen.
  assert (Hidx : forall i, (i < length b')%nat ->
                   (i < length i')%nat /\ (i < length l')%nat
                   /\ (i < length p')%nat).
  { intros i Hi.
    destruct (mapM_each_ok _ _ _ _ _ Hmap i) as [w3 Hok].
    { apply in_seq. lia. }
    unfold getitem, bind, lift, ret, raise in Hok.
    destruct (i' !! i) eqn:E1; [|discriminate Hok].
    destruct (b' !! i) eqn:E2; [|discriminate Hok].
    destruct (l' !! i) eqn:E3; [|discriminate Hok].
    destruct (p' !! i) eqn:E4; [|discriminate Hok].
    apply lookup_lt_Some in E1, E3, E4. auto. }
  assert (Hle : (length b' <= length i')%nat /\ (length b' <= length l')%nat
                /\ (length b' <= length p')%nat).
  { destruct (length b') as [|k] eqn:Ek; [lia|].
    destruct (Hidx k ltac:(lia)) as (? & ? & ?). lia. }
  rewrite Hlen.
  destruct (default 10%Z (args !! "image_max") <? Z.of_nat (length imgs))%Z.
  - destruct Ht as (Hi & _ & -> & -> & -> & _).
    rewrite !length_firstn in *. lia.
  - destruct Ht as (-> & _ & -> & -> & -> & _). exact Hle.
Qed.

End VisualsFacts.

Lemma plot_grid_capacity_witness :
  exists gp w',
    plot_grid demo_convert demo_annotate fifteen_images fifteen_ids
      fifteen_boxes fifteen_logits fifteen_phrases ∅ world0 = (Ok gp, w')
    /\ (length (gp_images gp) < fst (gp_grid_size gp) * snd (gp_grid_size gp))%nat.
Proof.
  destruct (plot_grid demo_convert demo_annotate fifteen_images fifteen_ids
              fifteen_boxes fifteen_logits fifteen_phrases ∅ world0)
    as [[gp|e] w'] eqn:Hrun.
  - exists gp, w'. split; [reflexivity|].
    exact (proj2 (plot_grid_capacity _ _ _ _ _ _ _ _ _ _ _ Hrun)).
  - exfalso. vm_compute in Hrun. discriminate.
Defined.

Lemma plot_grid_frames_witness :
  exists gp w',
    plot_grid demo_convert demo_annotate fifteen_images fifteen_ids
      fifteen_boxes fifteen_logits fifteen_phrases ∅ world0 = (Ok gp, w')
    /\ truncates ∅ fifteen_images = true
    /\ length (gp_images gp) = 15%nat
    /\ trace w' = [EvPrint truncation_warning].
Proof.
  destruct (plot_grid demo_convert demo_annotate fifteen_images fifteen_ids
              fifteen_boxes fifteen_logits fifteen_phrases ∅ world0)
    as [[gp|e] w'] eqn:Hrun.
  - exists gp, w'. split; [reflexivity|]. split; [reflexivity|].
    pose proof (plot_grid_frames _ _ _ _ _ _ _ _ _ _ _ Hrun) as H.
    change (truncates ∅ fifteen_images) with true in H.
    destruct H as (Hn & _ & Htrace). split; [exact Hn | exact Htrace].
  - exfalso. vm_compute in Hrun. discriminate.
Defined.

Lemma plot_grid_needs_entries_witness :
  exists gp w',
    plot_grid demo_convert demo_annotate fifteen_images fifteen_ids
      fifteen_boxes fifteen_logits fifteen_phrases ∅ world0 = (Ok gp, w')
    /\ (length (gp_images gp) <= length fifteen_images)%nat.
Proof.
  destruct (plot_grid demo_convert demo_annotate fifteen_images fifteen_ids
              fifteen_boxes fifteen_logits fifteen_phrases ∅ world0)
    as [[gp|e] w'] eqn:Hrun.
  - exists gp, w'. split; [reflexivity|].
    exact (proj1 (plot_grid_needs_entries _ _ _ _ _ _ _ _ _ _ _ Hrun)).
  - exfalso. vm_compute in Hrun. discriminate.
Defined.

(** ** Detection, segmentation and the pipeline on the class as written *)

(** [predict_dino] on an object of the class: the conversions of the image,
    then the read of [self.device]. *)
Lemma predict_dino_stops_at_device
    (limit : nat) (rt : Runtime) (image : ImageInput) (text_prompt : string)
    (bt tt : Q) (Normalize : bool) (w : World) :
  predict_dino (as_written limit rt) image text_prompt bt tt Normalize w
  = (Raise (match load_trans_image rt image with
            | Raise e => e
            | Ok _ => match change_image_instance rt image with
                      | Raise e => e
                      | Ok _ => RecursionError
                      end
            end), w).
Proof.
  unfold predict_dino. rewrite as_written_device.
  unfold bind, lift. cbn [as_written load_trans_image change_image_instance].
  destruct (load_trans_image rt image) as [a|e1]; [|reflexivity].
  destruct (change_image_instance rt image) as [b|e2]; reflexivity.
Qed.

(** C3. [predict_dino] with [Normalize] on an object of the class converts
    no box: it never returns, it leaves the world as it was (the detector is
    not called), and once the image is converted the error is the
    RecursionError of [self.device].  The block it does not reach multiplies
    the x coordinates of the corner boxes by the first axis of the image
    array and the y coordinates by the second. *)
Theorem predict_dino_normalize
    (limit : nat) (rt : Runtime) (image : ImageInput) (text_prompt : string)
    (bt tt : Q) (w : World) :
  let out := predict_dino (as_written limit rt) image text_prompt bt tt true w in
  is_ok (fst out) = false
  /\ snd out = w
  /\ (forall a b,
        load_trans_image rt image = Ok a ->
        change_image_instance rt image = Ok b ->
        fst out = Raise RecursionError)
  /\ (forall d0 d1 rest pixel boxes,
        normalize_boxes (as_written limit rt)
          (mk_ndarray (d0 :: d1 :: rest) pixel) boxes w
        = (Ok (map (fun b => mk_box (bx0 b * of_nat d0) (bx1 b * of_nat d1)
                                    (bx2 b * of_nat d0) (bx3 b * of_nat d1))
                   (box_cxcywh_to_xyxy rt boxes)), w)).
Proof.
  cbv zeta. rewrite predict_dino_stops_at_device. cbn [fst snd is_ok].
  split; [reflexivity|]. split; [reflexivity|]. split.
  - intros a b Ha Hb. now rewrite Ha, Hb.
  - intros d0 d1 rest pixel boxes. reflexivity.
Qed.

(** The block on a 2 x 3 array and the box that covers the image: the right
    edge comes out at 2, the first axis, and the bottom edge at 3. *)
Lemma normalize_boxes_two_by_three :
  exists b,
    fst (normalize_boxes (as_written 1000 demo_rt) (blank [2; 3; 3]%nat)
           [centred_box] world0) = Ok [b]
    /\ (bx0 b == 0 /\ bx1 b == 0 /\ bx2 b == 2 /\ bx3 b == 3)%Q.
Proof.
  eexists. split; [vm_compute; reflexivity|].
  cbn [bx0 bx1 bx2 bx3]. repeat split; reflexivity.
Qed.


(** What the combination gives when the area filter is at hand: the OR of
    the kept masks over the instance axis, the channel axis moved last, so
    an array of three axes. *)
Lemma combine_masks_returns (rt : Runtime) (masks mask : BoolTensor) (w w' : World) :
  combine_masks rt masks w = (Ok mask, w') ->
  exists area_filter kept n c h wd,
    postprocess_masks rt = Some area_filter
    /\ area_filter masks 500%Z = Ok kept
    /\ bt_shape kept = [n; c; h; wd]
    /\ bt_shape mask = [h; wd; c]
    /\ forall i j k,
         bt_at mask [i; j; k]
         = existsb (fun b => bt_at kept [b; k; i; j]) (seq 0 n).
Proof.
  unfold combine_masks, load_global, torch_any_dim0, permute_1_2_0,
    bind, lift, ret, raise.
  run_cases. all: try discriminate.
  all: intros [= <- _].
  all: repeat match goal with
              | H : bt_shape (mk_bt _ _) = _ |- _ => cbn [bt_shape] in H
              end; subst.
  all: repeat eexists; cbn [bt_shape bt_at]; eauto.
Qed.


(** C5. On an object of the class [predict_batch] with a mode other than
    [box_predict] does not return and raises no error about the mode: it
    stops in [predict_dino], at [self.device], with the world as it was.
    The mode itself is never examined before the [return]: for any
    collaborators with which detection and box filtering go through, the
    call fails there, reading the local [masks] that no branch assigned. *)
Theorem predict_batch_unsupported_mode
    (limit : nat) (rt : Runtime) (image : ImageInput) (text_prompt : string)
    (bt pbt tt : Q) (mode : string) (w : World) :
  mode <> "box_predict" ->
  let out := predict_batch (as_written limit rt) image text_prompt bt pbt tt
               mode w in
  is_ok (fst out) = false
  /\ snd out = w
  /\ (forall a b,
        load_trans_image rt image = Ok a ->
        change_image_instance rt image = Ok b ->
        fst out = Raise RecursionError)
  /\ (forall rt' boxes logits phrases w1 array kept,
        predict_dino rt' image text_prompt bt tt false w
          = (Ok (boxes, logits, phrases), w1) ->
        change_image_instance rt' image = Ok array ->
        process_box_batch rt' (firstn 2 (nd_shape array)) [boxes] [logits]
          [phrases] pbt = Ok kept ->
        predict_batch rt' image text_prompt bt pbt tt mode w
          = (Raise (UnboundLocalError "masks"), w1)).
Proof.
  intros Hmode. cbv zeta.
  assert (Hstop : predict_batch (as_written limit rt) image text_prompt bt pbt
                    tt mode w
                  = (Raise (match load_trans_image rt image with
                            | Raise e => e
                            | Ok _ => match change_image_instance rt image with
                                      | Raise e => e
                                      | Ok _ => RecursionError
                                      end
                            end), w)).
  { unfold predict_batch. apply bind_raise. apply predict_dino_stops_at_device. }
  rewrite Hstop. cbn [fst snd is_ok].
  split; [reflexivity|]. split; [reflexivity|]. split.
  - intros a b Ha Hb. now rewrite Ha, Hb.
  - intros rt' boxes logits phrases w1 array kept Hdino Himg Hkept.
    apply String.eqb_neq in Hmode.
    unfold predict_batch. rewrite (bind_ok _ _ _ _ _ Hdino).
    unfold lift, bind. rewrite Himg, Hkept, Hmode.
    destruct kept as [[nb nl] np]. reflexivity.
Qed.

Lemma predict_batch_unsupported_mode_witness :
  "unsupported_value" <> "box_predict"
  /\ predict_batch (as_written 1000 demo_rt) photo "dog" (3 # 10) (3 # 10) (1 # 4)
       "unsupported_value" world0
     = (Raise RecursionError, world0).
Proof.
  assert (Hmode : "unsupported_value" <> "box_predict") by discriminate.
  split; [exact Hmode|].
  destruct (predict_batch_unsupported_mode 1000 demo_rt photo "dog" (3 # 10)
              (3 # 10) (1 # 4) "unsupported_value" world0 Hmode)
    as (_ & Hw & He & _).
  cbv zeta in Hw, He. specialize (He _ _ eq_refl eq_refl).
  destruct (predict_batch (as_written 1000 demo_rt) photo "dog" (3 # 10)
              (3 # 10) (1 # 4) "unsupported_value" world0) as [r w'].
  cbn [fst snd] in Hw, He. now subst.
Defined.

